(** * Volkern MCP server: tool dispatch (src/src/index.ts)

    A shallow embedding of the tool registry [tools], the transport helper
    [volkernRequest], the dispatcher [handleToolCall] and the
    CallToolRequest handler, together with the parts of the JavaScript
    runtime they rely on (property lookup, truthiness, [String], template
    literals, [JSON.stringify], [URLSearchParams], object rest
    destructuring, [fetch]).

    Conventions of the model.
    - JSON data is the inductive [Json].  A number is an integer-valued
      double in the safe range, carried as a [Z]; fractional numbers are
      outside the model.
    - A string is a sequence of code units below 256, carried as a Rocq
      [string].
    - A property read that finds nothing yields [undefined], carried as
      [None] in [option Json].
    - The conversion of a value to a string, [String(v)] or a template
      literal, throws a TypeError for an object that has a property of its
      own named toString (a JSON value is never callable), also when such
      an object sits in an array.
    - Objects live in a store and are passed by reference ([loc]); an
      object keeps its properties in enumeration order.  The [arguments]
      of a request may be absent; the handler then passes [undefined].
    - An [async] function is a computation [Js A] over the [World] that
      either completes normally or throws (a rejected promise).  Every
      value thrown in this program is an [Error] instance with a
      [message]. *)

From Stdlib Require Import ZArith NArith List Bool Ascii String Lia.
From stdpp Require Import base list strings.

Local Open Scope string_scope.
Local Open Scope Z_scope.

(** ** JSON data *)

#[warnings="-register-all"]
Inductive Json : Type :=
  | JNull
  | JBool (b : bool)
  | JNum (n : Z)
  | JStr (s : string)
  | JArr (items : list Json)
  | JObj (props : list (string * Json)).

(** An object's own enumerable properties, in enumeration order. *)
Definition Props : Type := list (string * Json).

(** [o.k] / [o[k]] on a plain object: the first (only) property named [k],
    or [undefined]. *)
Fixpoint get_prop (k : string) (ps : Props) : option Json :=
  match ps with
  | [] => None
  | (k', v) :: rest => if String.eqb k k' then Some v else get_prop k rest
  end.

(** [o.k = v]: replaces the value in place when the property exists,
    otherwise adds the property last. *)
Fixpoint put_prop (k : string) (v : Json) (ps : Props) : Props :=
  match ps with
  | [] => [(k, v)]
  | (k', v') :: rest =>
      if String.eqb k k' then (k, v) :: rest else (k', v') :: put_prop k v rest
  end.

(** [const { k, ...rest } = o]: the residual object holds every property of
    [o] except [k], in the same order. *)
Definition rest_without (k : string) (ps : Props) : Props :=
  List.filter (fun p => negb (String.eqb (fst p) k)) ps.

Definition has_prop (k : string) (ps : Props) : bool :=
  existsb (fun p => String.eqb (fst p) k) ps.

(** ** Conversions of the runtime *)

Module Conv.

Definition digit_char (d : N) : ascii :=
  ascii_of_N (N_of_ascii "0" + d).

(** Decimal digits of a positive number, most significant first.  The
    fuel bounds the number of digits. *)
Fixpoint digits_go (fuel : nat) (n : N) (acc : string) : string :=
  match fuel with
  | O => acc
  | S fuel' =>
      let acc' := String (digit_char (n mod 10)) acc in
      if (n / 10 =? 0)%N then acc' else digits_go fuel' (n / 10)%N acc'
  end.

Definition digits (n : N) : string :=
  digits_go (S (N.to_nat (N.log2 n))) n "".

(** Number::toString for an integer-valued number. *)
Definition NumberToString (n : Z) : string :=
  if n <? 0 then "-" +:+ digits (Z.to_N (- n)) else digits (Z.to_N n).

Fixpoint join (sep : string) (parts : list string) : string :=
  match parts with
  | [] => ""
  | [p] => p
  | p :: rest => p +:+ sep +:+ join sep rest
  end.

(** All the strings of a list, or nothing when one is missing. *)
Fixpoint sequence (l : list (option string)) : option (list string) :=
  match l with
  | [] => Some []
  | None :: _ => None
  | Some s :: rest =>
      match sequence rest with
      | Some ss => Some (s :: ss)
      | None => None
      end
  end.

(** ToString on a JSON value: what [String(v)] and a template literal
    [`${v}`] produce, or [None] when the conversion throws a TypeError.
    An array joins the conversions of its elements with a comma, [null]
    elements giving the empty string.  A plain object gives
    "[object Object]" through [Object.prototype.toString], unless it has a
    property of its own named toString: that value is not callable, nor
    does [valueOf] give a primitive, and the conversion throws. *)
Fixpoint ToStringJson (v : Json) : option string :=
  match v with
  | JNull => Some "null"
  | JBool true => Some "true"
  | JBool false => Some "false"
  | JNum n => Some (NumberToString n)
  | JStr s => Some s
  | JArr items =>
      option_map (join ",")
        (sequence (map (fun x => match x with
                                 | JNull => Some ""
                                 | _ => ToStringJson x
                                 end) items))
  | JObj props =>
      if has_prop "toString" props then None else Some "[object Object]"
  end.

Definition ToString (v : option Json) : option string :=
  match v with
  | None => Some "undefined"
  | Some j => ToStringJson j
  end.

(** ToBoolean: [undefined], [null], [false], [0] and the empty string are
    falsy, everything else is truthy. *)
Definition ToBoolean (v : option Json) : bool :=
  match v with
  | None => false
  | Some JNull => false
  | Some (JBool b) => b
  | Some (JNum n) => negb (n =? 0)
  | Some (JStr s) => negb (String.eqb s "")
  | Some (JArr _) => true
  | Some (JObj _) => true
  end.

Definition hex_digit (upper : bool) (d : N) : ascii :=
  if (d <? 10)%N then digit_char d
  else ascii_of_N (N_of_ascii (if upper then "A" else "a") + (d - 10)).

Definition hex2 (upper : bool) (b : N) : string :=
  String (hex_digit upper (b / 16)) (String (hex_digit upper (b mod 16)) "").

End Conv.

(** ** JSON.stringify *)

Module JSON.

(** QuoteJSONString, one code unit at a time. *)
Definition escape_char (c : ascii) : string :=
  let n := N_of_ascii c in
  if (n =? 8)%N then "\b"
  else if (n =? 9)%N then "\t"
  else if (n =? 10)%N then "\n"
  else if (n =? 12)%N then "\f"
  else if (n =? 13)%N then "\r"
  else if (n =? 34)%N then String "\" (String c "")
  else if (n =? 92)%N then "\\"
  else if (n <? 32)%N then "\u00" +:+ Conv.hex2 false n
  else String c "".

Fixpoint escape (s : string) : string :=
  match s with
  | EmptyString => ""
  | String c rest => escape_char c +:+ escape rest
  end.

Definition dquote : string := String (ascii_of_N 34) "".
Definition newline : string := String (ascii_of_N 10) "".

Definition QuoteJSONString (s : string) : string :=
  dquote +:+ escape s +:+ dquote.

(** The shared tail of SerializeJSONObject and SerializeJSONArray:
    [partial] holds the serialized members, [stepback] the indentation of
    the enclosing level and [indent] the indentation of the members. *)
Definition wrap (open close gap stepback indent : string)
    (partial : list string) : string :=
  match partial with
  | [] => open +:+ close
  | _ =>
      if String.eqb gap "" then open +:+ Conv.join "," partial +:+ close
      else
        open +:+ newline +:+ indent
        +:+ Conv.join ("," +:+ newline +:+ indent) partial
        +:+ newline +:+ stepback +:+ close
  end.

(** SerializeJSONProperty for JSON data. *)
Fixpoint serialize (gap indent : string) (v : Json) {struct v} : string :=
  match v with
  | JNull => "null"
  | JBool true => "true"
  | JBool false => "false"
  | JNum n => Conv.NumberToString n
  | JStr s => QuoteJSONString s
  | JArr items =>
      let indent' := indent +:+ gap in
      wrap "[" "]" gap indent indent' (map (serialize gap indent') items)
  | JObj props =>
      let indent' := indent +:+ gap in
      wrap "{" "}" gap indent indent'
        (map (fun p =>
                QuoteJSONString (fst p) +:+ ":"
                +:+ (if String.eqb gap "" then "" else " ")
                +:+ serialize gap indent' (snd p)) props)
  end.

Fixpoint spaces (n : nat) : string :=
  match n with
  | O => ""
  | S n' => " " +:+ spaces n'
  end.

(** [JSON.stringify(v)]. *)
Definition stringify (v : Json) : string := serialize "" "" v.

(** [JSON.stringify(v, null, space)] for a numeric [space] (at most 10
    spaces are used). *)
Definition stringify_pretty (space : nat) (v : Json) : string :=
  serialize (spaces (Nat.min space 10)) "" v.

End JSON.

(** ** URLSearchParams serialization *)

Module Url.

(** UTF-8 bytes of one code unit below 256. *)
Definition utf8 (c : ascii) : list N :=
  let n := N_of_ascii c in
  if (n <? 128)%N then [n]
  else [(192 + n / 64)%N; (128 + n mod 64)%N].

Definition is_alnum (b : N) : bool :=
  ((48 <=? b) && (b <=? 57) || (65 <=? b) && (b <=? 90)
   || (97 <=? b) && (b <=? 122))%N.

(** The application/x-www-form-urlencoded byte serializer: alphanumerics
    and [*-._] stay, a space becomes [+], every other byte is
    percent-encoded in upper-case hexadecimal. *)
Definition encode_byte (b : N) : string :=
  if (b =? 32)%N then "+"
  else if is_alnum b || (b =? 42)%N || (b =? 45)%N || (b =? 46)%N
          || (b =? 95)%N
  then String (ascii_of_N b) ""
  else "%" +:+ Conv.hex2 true b.

Fixpoint encode (s : string) : string :=
  match s with
  | EmptyString => ""
  | String c rest =>
      Conv.join "" (map encode_byte (utf8 c)) +:+ encode rest
  end.

(** [params.toString()] on the list of name-value pairs. *)
Definition serialize (entries : list (string * string)) : string :=
  Conv.join "&" (map (fun e => encode (fst e) +:+ "=" +:+ encode (snd e))
                     entries).

End Url.

(** ** The world: object store, URLSearchParams store, network log *)

Definition loc : Type := nat.

(** What [fetch(url, options)] puts on the wire: the URL and the
    properties the [options] object has at the time of the call. *)
Record Request : Type := mkRequest {
  req_url : string;
  req_init : Props
}.

Definition req_method (r : Request) : option Json := get_prop "method" (req_init r).
Definition req_body (r : Request) : option Json := get_prop "body" (req_init r).

Record World : Type := mkWorld {
  objects : list Props;
  searchParams : list (list (string * string));
  wire : list Request
}.

Definition empty_world : World := mkWorld [] [] [].

(** A thrown value.  Everything this program throws is an [Error]
    instance: the errors it creates with [new Error], the TypeErrors of
    the runtime, the SyntaxError of [response.json()] and the rejections
    of [fetch] (a TypeError or a DOMException). *)
Inductive Thrown : Type :=
  | ThrowError (message : string).

Inductive Completion (A : Type) : Type :=
  | Normal (a : A)
  | Abrupt (e : Thrown).
Arguments Normal {A} a.
Arguments Abrupt {A} e.

Definition Js (A : Type) : Type := World -> Completion A * World.

#[global] Instance Js_ret : MRet Js := fun A a w => (Normal a, w).

#[global] Instance Js_bind : MBind Js := fun A B k m w =>
  match m w with
  | (Normal a, w') => k a w'
  | (Abrupt e, w') => (Abrupt e, w')
  end.

Definition throw {A : Type} (e : Thrown) : Js A := fun w => (Abrupt e, w).

(** [m.catch(h)] / [try { m } catch (e) { h e }]. *)
Definition catch {A : Type} (m : Js A) (h : Thrown -> Js A) : Js A := fun w =>
  match m w with
  | (Normal a, w') => (Normal a, w')
  | (Abrupt e, w') => h e w'
  end.

(** An object literal, or the residual object of a rest pattern: a fresh
    object at the next free location. *)
Definition new_object (ps : Props) : Js loc := fun w =>
  (Normal (length (objects w)),
   mkWorld (objects w ++ [ps])%list (searchParams w) (wire w)).

Definition read_object (o : loc) : Js Props := fun w =>
  (Normal (default [] (objects w !! o)), w).

(** [args.k]: a TypeError when [args] is [undefined]. *)
Definition get (o : option loc) (k : string) : Js (option Json) :=
  match o with
  | Some l => ps ← read_object l; mret (get_prop k ps)
  | None =>
      throw (ThrowError ("Cannot read properties of undefined (reading '"
                         +:+ k +:+ "')"))
  end.

(** [const { k, ...data } = args]: the value of [k] and a fresh object with
    the other properties; a TypeError when [args] is [undefined]. *)
Definition destructure_rest (o : option loc) (k : string)
    : Js (option Json * loc) :=
  match o with
  | Some l =>
      ps ← read_object l;
      data ← new_object (rest_without k ps);
      mret (get_prop k ps, data)
  | None =>
      throw (ThrowError ("Cannot destructure property '" +:+ k
                         +:+ "' of 'args' as it is undefined."))
  end.

(** [String(v)] and [`${v}`]. *)
Definition js_String (v : option Json) : Js string :=
  match Conv.ToString v with
  | Some s => mret s
  | None => throw (ThrowError "Cannot convert object to primitive value")
  end.

(** [o.k = v] *)
Definition assign (o : loc) (k : string) (v : Json) : Js unit := fun w =>
  (Normal tt,
   mkWorld (alter (put_prop k v) o (objects w)) (searchParams w) (wire w)).

(** [new URLSearchParams()] *)
Definition new_URLSearchParams : Js loc := fun w =>
  (Normal (length (searchParams w)),
   mkWorld (objects w) (searchParams w ++ [[]])%list (wire w)).

(** [params.append(k, v)] *)
Definition append (p : loc) (k v : string) : Js unit := fun w =>
  (Normal tt,
   mkWorld (objects w) (alter (fun es => (es ++ [(k, v)])%list) p (searchParams w))
           (wire w)).

(** [params.toString()] *)
Definition params_toString (p : loc) : Js string := fun w =>
  (Normal (Url.serialize (default [] (searchParams w !! p))), w).

(** [if (c) stmt] *)
Definition when (c : bool) (stmt : Js unit) : Js unit :=
  if c then stmt else mret tt.

(** [switch (s) { case k: ...; default: ... }] where every case returns. *)
Fixpoint switch {A : Type} (s : string) (cases : list (string * A))
    (default : A) : A :=
  match cases with
  | [] => default
  | (k, body) :: rest => if String.eqb s k then body else switch s rest default
  end.

(** ** The remote side *)

(** The body of a response as [response.json()] sees it: JSON text and its
    parse, or something else, on which [json()] rejects with a SyntaxError
    carrying [syntax_error]. *)
Inductive Body : Type :=
  | JsonBody (parsed : Json)
  | OtherBody (syntax_error : string).

Record Response : Type := mkResponse {
  status : Z;
  body : Body
}.

(** [response.ok]: the status is in the range 200-299. *)
Definition ok (r : Response) : bool := (200 <=? status r) && (status r <=? 299).

(** [response.json()] *)
Definition json (r : Response) : Js Json :=
  match body r with
  | JsonBody j => mret j
  | OtherBody msg => throw (ThrowError msg)
  end.

(** What the network does with one request: [fetch] rejects, or a response
    arrives. *)
Inductive FetchResult : Type :=
  | Rejected (e : Thrown)
  | Responded (r : Response).

(** ** Tool definitions *)

Inductive SchemaType : Type := TString | TNumber | TBoolean | TArray | TObject.

(** [inputSchema]: the declared properties with their types and the
    [required] list when the schema has one (descriptions and enum lists
    are left out). *)
Record Schema : Type := mkSchema {
  properties : list (string * SchemaType);
  required : option (list string)
}.

Record Tool : Type := mkTool {
  name : string;
  inputSchema : Schema
}.

Definition tools : list Tool :=
  [ mkTool "volkern_list_leads"
      (mkSchema [("estado", TString); ("canal", TString); ("search", TString);
                 ("page", TNumber); ("limit", TNumber)] None);
    mkTool "volkern_get_lead"
      (mkSchema [("leadId", TString)] (Some ["leadId"]));
    mkTool "volkern_create_lead"
      (mkSchema [("nombre", TString); ("email", TString);
                 ("telefono", TString); ("empresa", TString);
                 ("canal", TString); ("estado", TString);
                 ("etiquetas", TArray); ("notas", TString);
                 ("contextoProyecto", TString)] (Some ["nombre"]));
    mkTool "volkern_update_lead"
      (mkSchema [("leadId", TString); ("nombre", TString); ("email", TString);
                 ("telefono", TString); ("empresa", TString);
                 ("canal", TString); ("estado", TString);
                 ("etiquetas", TArray); ("notas", TString)]
                (Some ["leadId"]));
    mkTool "volkern_check_disponibilidad"
      (mkSchema [("fecha", TString); ("duracion", TNumber)] (Some ["fecha"]));
    mkTool "volkern_list_citas"
      (mkSchema [("estado", TString); ("tipo", TString); ("fecha", TString);
                 ("fechaInicio", TString); ("fechaFin", TString)] None);
    mkTool "volkern_create_cita"
      (mkSchema [("leadId", TString); ("fechaHora", TString);
                 ("tipo", TString); ("titulo", TString);
                 ("descripcion", TString); ("duracion", TNumber);
                 ("servicioId", TString)] (Some ["leadId"; "fechaHora"]));
    mkTool "volkern_update_cita"
      (mkSchema [("citaId", TString); ("fechaHora", TString);
                 ("estado", TString); ("descripcion", TString);
                 ("duracion", TNumber)] (Some ["citaId"]));
    mkTool "volkern_cita_accion"
      (mkSchema [("citaId", TString); ("accion", TString);
                 ("nuevaFecha", TString); ("motivo", TString)]
                (Some ["citaId"; "accion"]));
    mkTool "volkern_list_servicios"
      (mkSchema [("activo", TBoolean)] None);
    mkTool "volkern_get_servicio"
      (mkSchema [("servicioId", TString)] (Some ["servicioId"]));
    mkTool "volkern_create_task"
      (mkSchema [("leadId", TString); ("tipo", TString); ("titulo", TString);
                 ("descripcion", TString); ("fechaVencimiento", TString);
                 ("asignadoA", TString)]
                (Some ["leadId"; "tipo"; "titulo"; "fechaVencimiento"]));
    mkTool "volkern_list_tasks"
      (mkSchema [("leadId", TString)] (Some ["leadId"]));
    mkTool "volkern_complete_task"
      (mkSchema [("taskId", TString)] (Some ["taskId"]));
    mkTool "volkern_send_whatsapp"
      (mkSchema [("leadId", TString); ("mensaje", TString); ("tipo", TString)]
                (Some ["leadId"; "mensaje"]));
    mkTool "volkern_list_conversaciones"
      (mkSchema [("leadId", TString); ("page", TNumber); ("limit", TNumber)]
                None);
    mkTool "volkern_list_interactions"
      (mkSchema [("leadId", TString)] (Some ["leadId"]));
    mkTool "volkern_create_interaction"
      (mkSchema [("leadId", TString); ("tipo", TString);
                 ("contenido", TString); ("resultado", TString);
                 ("metadatos", TObject)]
                (Some ["leadId"; "tipo"; "contenido"]));
    mkTool "volkern_list_notes"
      (mkSchema [("leadId", TString)] (Some ["leadId"]));
    mkTool "volkern_create_note"
      (mkSchema [("leadId", TString); ("contenido", TString);
                 ("titulo", TString)] (Some ["leadId"; "contenido"])) ].

(** The names the registry lists, and the keys a tool marks required. *)
Definition tool_names : list string := map name tools.

Definition required_keys (t : Tool) : list string :=
  default [] (required (inputSchema t)).

(** ** The result of a tool call *)

Record ContentItem : Type := mkContent {
  type : string;
  text : string
}.

(** [isError] is [None] when the property is absent. *)
Record CallToolResult : Type := mkResult {
  content : list ContentItem;
  isError : option bool
}.

(** ** API helper and tool handlers *)

Section Server.

(** Configuration read at start-up and the behaviour of the network. *)
Variable VOLKERN_API_URL : string.
Variable VOLKERN_API_KEY : string.
Variable remote : Request -> FetchResult.

(** [fetch(url, options)]: one request goes on the wire; the promise
    rejects or resolves with the response. *)
Definition fetch (url : string) (options : loc) : Js Response :=
  init ← read_object options;
  ((fun w =>
      let rq := mkRequest url init in
      let w' := mkWorld (objects w) (searchParams w) (wire w ++ [rq])%list in
      match remote rq with
      | Rejected e => (Abrupt e, w')
      | Responded r => (Normal r, w')
      end) : Js Response).

(** [volkernRequest(endpoint, method = "GET", body?)]; an omitted
    argument is [None]. *)
Definition volkernRequest (endpoint : string) (method : option string)
    (body : option loc) : Js Json :=
  let method := default "GET" method in
  let url := VOLKERN_API_URL +:+ endpoint in
  options ← new_object
    [("method", JStr method);
     ("headers", JObj [("Authorization", JStr ("Bearer " +:+ VOLKERN_API_KEY));
                       ("Content-Type", JStr "application/json")])];
  match body with
  | Some b =>
      when (negb (String.eqb method "GET"))
        (ps ← read_object b;
         assign options "body" (JStr (JSON.stringify (JObj ps))))
  | None => mret tt
  end;;
  response ← fetch url options;
  if negb (ok response) then
    errorData ← catch (json response) (fun _ => mret (JObj []));
    throw (ThrowError ("Volkern API Error ("
                       +:+ Conv.NumberToString (status response) +:+ "): "
                       +:+ JSON.stringify errorData))
  else json response.

(** [if (args.k) params.append(k, String(args.k))] *)
Definition append_if_truthy (args : option loc) (params : loc) (k : string)
    : Js unit :=
  v ← get args k;
  when (Conv.ToBoolean v) (s ← js_String v; append params k s).

Definition handleToolCall (name : string) (args : option loc) : Js Json :=
  switch name
    [ ("volkern_list_leads",
        params ← new_URLSearchParams;
        append_if_truthy args params "estado";;
        append_if_truthy args params "canal";;
        append_if_truthy args params "search";;
        append_if_truthy args params "page";;
        append_if_truthy args params "limit";;
        q ← params_toString params;
        volkernRequest ("/leads?" +:+ q) None None);
      ("volkern_get_lead",
        leadId ← get args "leadId";
        s ← js_String leadId;
        volkernRequest ("/leads/" +:+ s) None None);
      ("volkern_create_lead",
        volkernRequest "/leads" (Some "POST") args);
      ("volkern_update_lead",
        '(leadId, data) ← destructure_rest args "leadId";
        s ← js_String leadId;
        volkernRequest ("/leads/" +:+ s) (Some "PATCH") (Some data));
      ("volkern_check_disponibilidad",
        params ← new_URLSearchParams;
        fecha ← get args "fecha";
        s ← js_String fecha;
        append params "fecha" s;;
        append_if_truthy args params "duracion";;
        q ← params_toString params;
        volkernRequest ("/citas/disponibilidad?" +:+ q) None None);
      ("volkern_list_citas",
        params ← new_URLSearchParams;
        append_if_truthy args params "estado";;
        append_if_truthy args params "tipo";;
        append_if_truthy args params "fecha";;
        append_if_truthy args params "fechaInicio";;
        append_if_truthy args params "fechaFin";;
        q ← params_toString params;
        volkernRequest ("/citas?" +:+ q) None None);
      ("volkern_create_cita",
        volkernRequest "/citas" (Some "POST") args);
      ("volkern_update_cita",
        '(citaId, data) ← destructure_rest args "citaId";
        s ← js_String citaId;
        volkernRequest ("/citas/" +:+ s) (Some "PATCH") (Some data));
      ("volkern_cita_accion",
        volkernRequest "/citas/accion" (Some "POST") args);
      ("volkern_list_servicios",
        params ← new_URLSearchParams;
        activo ← get args "activo";
        when (bool_decide (activo ≠ None))
             (s ← js_String activo; append params "activo" s);;
        q ← params_toString params;
        volkernRequest ("/servicios?" +:+ q) None None);
      ("volkern_get_servicio",
        servicioId ← get args "servicioId";
        s ← js_String servicioId;
        volkernRequest ("/servicios/" +:+ s) None None);
      ("volkern_create_task",
        '(leadId, taskData) ← destructure_rest args "leadId";
        s ← js_String leadId;
        volkernRequest ("/leads/" +:+ s +:+ "/tasks") (Some "POST")
                       (Some taskData));
      ("volkern_list_tasks",
        leadId ← get args "leadId";
        s ← js_String leadId;
        volkernRequest ("/leads/" +:+ s +:+ "/tasks") None None);
      ("volkern_complete_task",
        taskId ← get args "taskId";
        s ← js_String taskId;
        completed ← new_object [("completada", JBool true)];
        volkernRequest ("/tasks/" +:+ s) (Some "PATCH") (Some completed));
      ("volkern_send_whatsapp",
        volkernRequest "/mensajes/enviar" (Some "POST") args);
      ("volkern_list_conversaciones",
        params ← new_URLSearchParams;
        append_if_truthy args params "leadId";;
        append_if_truthy args params "page";;
        append_if_truthy args params "limit";;
        q ← params_toString params;
        volkernRequest ("/mensajes/conversaciones?" +:+ q) None None);
      ("volkern_list_interactions",
        leadId ← get args "leadId";
        s ← js_String leadId;
        volkernRequest ("/leads/" +:+ s +:+ "/interactions") None None);
      ("volkern_create_interaction",
        '(leadId, interactionData) ← destructure_rest args "leadId";
        s ← js_String leadId;
        volkernRequest ("/leads/" +:+ s +:+ "/interactions") (Some "POST")
                       (Some interactionData));
      ("volkern_list_notes",
        leadId ← get args "leadId";
        s ← js_String leadId;
        volkernRequest ("/leads/" +:+ s +:+ "/notes") None None);
      ("volkern_create_note",
        '(noteLeadId, noteData) ← destructure_rest args "leadId";
        s ← js_String noteLeadId;
        volkernRequest ("/leads/" +:+ s +:+ "/notes") (Some "POST")
                       (Some noteData)) ]
    (throw (ThrowError ("Unknown tool: " +:+ name))).

(** The CallToolRequest handler, on [request.params = {name, arguments}];
    [args] is [None] when the request has no [arguments].  The thrown
    value is always an [Error], so the message is its [message]. *)
Definition CallToolRequest (name : string) (args : option loc)
    : World -> CallToolResult * World := fun w =>
  match handleToolCall name args w with
  | (Normal result, w') =>
      (mkResult [mkContent "text" (JSON.stringify_pretty 2 result)] None, w')
  | (Abrupt error, w') =>
      let errorMessage :=
        match error with
        | ThrowError message => message
        end in
      (mkResult [mkContent "text" ("Error: " +:+ errorMessage)] (Some true),
       w')
  end.

(** One tool call as the caller sees it: the argument object of the
    request is the only object in the store when the handler starts. *)
Definition call_tool (name : string) (arguments : Props)
    : CallToolResult * World :=
  CallToolRequest name (Some 0%nat) (mkWorld [arguments] [] []).

(** A tool call whose request has no [arguments]. *)
Definition call_tool_without_arguments (name : string)
    : CallToolResult * World :=
  CallToolRequest name None empty_world.

End Server.

(** ** Closed forms used in the statements *)

(** [needle] occurs in [s]. *)
Definition occurs_in (needle s : string) : Prop :=
  exists pre post, s = pre +:+ needle +:+ post.

(** The two shapes of result the handler produces. *)
Definition Success (payload : Json) : CallToolResult :=
  mkResult [mkContent "text" (JSON.stringify_pretty 2 payload)] None.

Definition Failure (message : string) : CallToolResult :=
  mkResult [mkContent "text" ("Error: " +:+ message)] (Some true).

(** The text the handler reports for a thrown error: its [message]. *)
Definition message_text (e : Thrown) : string :=
  match e with
  | ThrowError message => message
  end.

Definition envelope (c : Completion Json) : CallToolResult :=
  match c with
  | Normal payload => Success payload
  | Abrupt e => Failure (message_text e)
  end.

(** The TypeError of a conversion to a string that fails. *)
Definition conversion_error : Thrown :=
  ThrowError "Cannot convert object to primitive value".

(** A call that failed in a conversion to a string: the error result
    carries the TypeError and no request was sent. *)
Definition conversion_failure (out : CallToolResult * World) : Prop :=
  out.1 = Failure "Cannot convert object to primitive value"
  /\ wire out.2 = [].

(** The payload an error message embeds: the parsed body, or the empty
    object when the body is not JSON. *)
Definition error_payload (r : Response) : Json :=
  match body r with
  | JsonBody j => j
  | OtherBody _ => JObj []
  end.

Definition api_error (r : Response) : string :=
  "Volkern API Error (" +:+ Conv.NumberToString (status r) +:+ "): "
  +:+ JSON.stringify (error_payload r).

(** How [volkernRequest] completes once the network has answered. *)
Definition settle (fr : FetchResult) : Completion Json :=
  match fr with
  | Rejected e => Abrupt e
  | Responded r =>
      if ok r then
        match body r with
        | JsonBody j => Normal j
        | OtherBody msg => Abrupt (ThrowError msg)
        end
      else Abrupt (ThrowError (api_error r))
  end.

(** The [options] object [volkernRequest] hands to [fetch] for a given
    method and body object. *)
Definition request_init (key method : string) (body : option Props) : Props :=
  let base :=
    [("method", JStr method);
     ("headers", JObj [("Authorization", JStr ("Bearer " +:+ key));
                       ("Content-Type", JStr "application/json")])] in
  match body with
  | Some ps =>
      if String.eqb method "GET" then base
      else put_prop "body" (JStr (JSON.stringify (JObj ps))) base
  | None => base
  end.

(** The query entry a truthiness-guarded [append] contributes: nothing for
    a falsy value, the converted value otherwise, [None] when the
    conversion of a truthy value throws. *)
Definition truthy_entry (k : string) (ps : Props)
    : option (list (string * string)) :=
  if Conv.ToBoolean (get_prop k ps)
  then option_map (fun s => [(k, s)]) (Conv.ToString (get_prop k ps))
  else Some [].

(** The entries of a sequence of guarded appends, in the order of [keys]. *)
Fixpoint query_entries (keys : list string) (ps : Props)
    : option (list (string * string)) :=
  match keys with
  | [] => Some []
  | k :: rest =>
      match truthy_entry k ps, query_entries rest ps with
      | Some e, Some es => Some (e ++ es)%list
      | _, _ => None
      end
  end.

(** Endpoint, method and body object of the one call each case of
    [handleToolCall] makes, as a function of the argument object. *)
Record RequestSpec : Type := mkSpec {
  path : string;
  method : string;
  payload : option Props
}.

(** A request that needs converted values: the TypeError when a conversion
    throws. *)
Definition converted {A : Type} (o : option A) (k : A -> RequestSpec)
    : Completion RequestSpec :=
  match o with
  | Some a => Normal (k a)
  | None => Abrupt conversion_error
  end.

(** What [handleToolCall] does with an argument object: the request it
    sends, or the error it throws before any request. *)
Definition build_request (name : string) (ps : Props)
    : Completion RequestSpec :=
  let id k := Conv.ToString (get_prop k ps) in
  let query keys prefix :=
    converted (query_entries keys ps)
      (fun entries => mkSpec (prefix +:+ Url.serialize entries) "GET" None) in
  switch name
    [ ("volkern_list_leads",
        query ["estado"; "canal"; "search"; "page"; "limit"] "/leads?");
      ("volkern_get_lead",
        converted (id "leadId") (fun s => mkSpec ("/leads/" +:+ s) "GET" None));
      ("volkern_create_lead", Normal (mkSpec "/leads" "POST" (Some ps)));
      ("volkern_update_lead",
        converted (id "leadId")
          (fun s => mkSpec ("/leads/" +:+ s) "PATCH"
                           (Some (rest_without "leadId" ps))));
      ("volkern_check_disponibilidad",
        converted
          (match id "fecha", truthy_entry "duracion" ps with
           | Some s, Some e => Some (("fecha", s) :: e)
           | _, _ => None
           end)
          (fun entries =>
             mkSpec ("/citas/disponibilidad?" +:+ Url.serialize entries)
                    "GET" None));
      ("volkern_list_citas",
        query ["estado"; "tipo"; "fecha"; "fechaInicio"; "fechaFin"] "/citas?");
      ("volkern_create_cita", Normal (mkSpec "/citas" "POST" (Some ps)));
      ("volkern_update_cita",
        converted (id "citaId")
          (fun s => mkSpec ("/citas/" +:+ s) "PATCH"
                           (Some (rest_without "citaId" ps))));
      ("volkern_cita_accion", Normal (mkSpec "/citas/accion" "POST" (Some ps)));
      ("volkern_list_servicios",
        converted
          (match get_prop "activo" ps with
           | Some v => option_map (fun s => [("activo", s)])
                                  (Conv.ToStringJson v)
           | None => Some []
           end)
          (fun entries =>
             mkSpec ("/servicios?" +:+ Url.serialize entries) "GET" None));
      ("volkern_get_servicio",
        converted (id "servicioId")
          (fun s => mkSpec ("/servicios/" +:+ s) "GET" None));
      ("volkern_create_task",
        converted (id "leadId")
          (fun s => mkSpec ("/leads/" +:+ s +:+ "/tasks") "POST"
                           (Some (rest_without "leadId" ps))));
      ("volkern_list_tasks",
        converted (id "leadId")
          (fun s => mkSpec ("/leads/" +:+ s +:+ "/tasks") "GET" None));
      ("volkern_complete_task",
        converted (id "taskId")
          (fun s => mkSpec ("/tasks/" +:+ s) "PATCH"
                           (Some [("completada", JBool true)])));
      ("volkern_send_whatsapp",
        Normal (mkSpec "/mensajes/enviar" "POST" (Some ps)));
      ("volkern_list_conversaciones",
        query ["leadId"; "page"; "limit"] "/mensajes/conversaciones?");
      ("volkern_list_interactions",
        converted (id "leadId")
          (fun s => mkSpec ("/leads/" +:+ s +:+ "/interactions") "GET" None));
      ("volkern_create_interaction",
        converted (id "leadId")
          (fun s => mkSpec ("/leads/" +:+ s +:+ "/interactions") "POST"
                           (Some (rest_without "leadId" ps))));
      ("volkern_list_notes",
        converted (id "leadId")
          (fun s => mkSpec ("/leads/" +:+ s +:+ "/notes") "GET" None));
      ("volkern_create_note",
        converted (id "leadId")
          (fun s => mkSpec ("/leads/" +:+ s +:+ "/notes") "POST"
                           (Some (rest_without "leadId" ps)))) ]
    (Abrupt (ThrowError ("Unknown tool: " +:+ name))).

(** What [handleToolCall] does when the request has no [arguments]: the
    four tools that pass [args] on send a POST without a body, every other
    tool throws a TypeError at its first read of [args]. *)
Definition build_request_absent (name : string) : Completion RequestSpec :=
  let read k :=
    Abrupt (ThrowError ("Cannot read properties of undefined (reading '"
                        +:+ k +:+ "')")) in
  let destructure k :=
    Abrupt (ThrowError ("Cannot destructure property '" +:+ k
                        +:+ "' of 'args' as it is undefined.")) in
  switch name
    [ ("volkern_list_leads", read "estado");
      ("volkern_get_lead", read "leadId");
      ("volkern_create_lead", Normal (mkSpec "/leads" "POST" None));
      ("volkern_update_lead", destructure "leadId");
      ("volkern_check_disponibilidad", read "fecha");
      ("volkern_list_citas", read "estado");
      ("volkern_create_cita", Normal (mkSpec "/citas" "POST" None));
      ("volkern_update_cita", destructure "citaId");
      ("volkern_cita_accion", Normal (mkSpec "/citas/accion" "POST" None));
      ("volkern_list_servicios", read "activo");
      ("volkern_get_servicio", read "servicioId");
      ("volkern_create_task", destructure "leadId");
      ("volkern_list_tasks", read "leadId");
      ("volkern_complete_task", read "taskId");
      ("volkern_send_whatsapp",
        Normal (mkSpec "/mensajes/enviar" "POST" None));
      ("volkern_list_conversaciones", read "leadId");
      ("volkern_list_interactions", read "leadId");
      ("volkern_create_interaction", destructure "leadId");
      ("volkern_list_notes", read "leadId");
      ("volkern_create_note", destructure "leadId") ]
    (Abrupt (ThrowError ("Unknown tool: " +:+ name))).

(** The request on the wire for a [RequestSpec]. *)
Definition request_of (url key : string) (rs : RequestSpec) : Request :=
  mkRequest (url +:+ path rs) (request_init key (method rs) (payload rs)).

(** A run of [handleToolCall] against its closed form: how it completes
    and what it hands to [fetch]. *)
Definition outcome (url key : string) (remote : Request -> FetchResult)
    (b : Completion RequestSpec) : Completion Json * list Request :=
  match b with
  | Normal rs =>
      (settle (remote (request_of url key rs)), [request_of url key rs])
  | Abrupt e => (Abrupt e, [])
  end.

(** The world [w] saw exactly one call of [fetch], with the URL string
    [url], with [method], and with the JSON text of [body] as its body
    when there is one. *)
Definition sends (w : World) (url method : string) (body : option Props)
    : Prop :=
  exists rq,
    wire w = [rq] /\ req_url rq = url /\ req_method rq = Some (JStr method)
    /\ req_body rq = option_map (fun ps => JStr (JSON.stringify (JObj ps))) body.


(** ** Configuration at start-up *)

(** [a || d] on an environment variable: [a], unless it is [undefined] or
    the empty string. *)
Definition or_else (a : option string) (d : string) : string :=
  match a with
  | Some s => if String.eqb s "" then d else s
  | None => d
  end.

Record Config : Type := mkConfig {
  api_url : string;
  api_key : string
}.

(** The start of the module: the two constants are read from the
    environment and the process exits, [None], when the key is empty. *)
Definition configure (env : string -> option string) : option Config :=
  let VOLKERN_API_URL :=
    or_else (env "VOLKERN_API_URL") "https://volkern.app/api" in
  let VOLKERN_API_KEY := or_else (env "VOLKERN_API_KEY") "" in
  if String.eqb VOLKERN_API_KEY "" then None
  else Some (mkConfig VOLKERN_API_URL VOLKERN_API_KEY).

(** A process started in the environment [env] that receives one tool
    call. *)
Definition serve (env : string -> option string)
    (remote : Request -> FetchResult) (name : string) (arguments : Props)
    : option (CallToolResult * World) :=
  match configure env with
  | None => None
  | Some c => Some (call_tool (api_url c) (api_key c) remote name arguments)
  end.

(** ** Characters of a string *)

Fixpoint count_char (c : ascii) (s : string) : nat :=
  match s with
  | EmptyString => O
  | String x rest =>
      if Ascii.eqb x c then S (count_char c rest) else count_char c rest
  end.

Fixpoint all_chars (p : ascii -> bool) (s : string) : bool :=
  match s with
  | EmptyString => true
  | String x rest => p x && all_chars p rest
  end.

(** The characters a serialized query component is made of: letters,
    digits and the six characters percent, asterisk, plus, hyphen, dot
    and underscore. *)
Definition query_safe (c : ascii) : bool :=
  let n := N_of_ascii c in
  (Url.is_alnum n || (n =? 37) || (n =? 42) || (n =? 43) || (n =? 45)
   || (n =? 46) || (n =? 95))%N.

(** The characters a serialized query is made of: the safe characters and
    the two separators. *)
Definition query_char (c : ascii) : bool :=
  query_safe c || Ascii.eqb c "&" || Ascii.eqb c "=".

(** An environment that sets the key and nothing else. *)
Definition key_only (k : string) : string -> option string :=
  fun v => if String.eqb v "VOLKERN_API_KEY" then Some k else None.


(** A store that already holds another object, a parameter list and a
    logged request. *)
Definition busy_store : World :=
  mkWorld [[("x", JNum 1)]; [("leadId", JStr "abc123")]]
          [[("page", "1")]]
          [mkRequest "https://volkern.app/api/servicios?" []].

(** * Properties *)

(** ** Conversions on concrete values *)

Example stringify_error_body :
  JSON.stringify (JObj [("error", JStr "slot_taken")])
  = "{" +:+ JSON.dquote +:+ "error" +:+ JSON.dquote +:+ ":"
    +:+ JSON.dquote +:+ "slot_taken" +:+ JSON.dquote +:+ "}".
Proof. reflexivity. Qed.

Example number_to_string_409 : Conv.NumberToString 409 = "409".
Proof. reflexivity. Qed.

Example encode_plain : Url.encode "nuevo" = "nuevo".
Proof. reflexivity. Qed.

Example encode_reserved : Url.encode "a b&c" = "a+b%26c".
Proof. reflexivity. Qed.

(** ** The store and the monad *)

Lemma switch_cons {A : Type} (s k : string) (b : A) rest d :
  switch s ((k, b) :: rest) d = if String.eqb s k then b else switch s rest d.
Proof. reflexivity. Qed.

Lemma switch_miss {A : Type} (s : string) (cases : list (string * A)) d :
  Forall (fun k => String.eqb s k = false) (map fst cases) ->
  switch s cases d = d.
Proof.
  induction cases as [|[k b] rest IH]; simpl; [reflexivity|].
  intros H. apply Forall_cons in H as [Hk Hrest].
  rewrite Hk. exact (IH Hrest).
Qed.

Lemma alter_snoc {A : Type} (f : A -> A) (l : list A) (x : A) :
  alter f (length l) (l ++ [x])%list = (l ++ [f x])%list.
Proof. induction l as [|y l IH]; simpl; [reflexivity|]. f_equal. exact IH. Qed.

Lemma lookup_snoc_live {A : Type} (l : list A) (x y : A) (i : nat) :
  l !! i = Some y -> (l ++ [x])%list !! i = Some y.
Proof. intros H. rewrite lookup_app_l; [exact H|]. eapply lookup_lt_Some, H. Qed.

Lemma get_prop_rest_same (k : string) (ps : Props) :
  get_prop k (rest_without k ps) = None.
Proof.
  induction ps as [|[k' v] ps IH]; simpl; [reflexivity|].
  destruct (String.eqb_spec k' k) as [->|Hne]; simpl; [exact IH|].
  destruct (String.eqb_spec k k') as [->|_]; [contradiction|exact IH].
Qed.

Lemma get_prop_rest_other (k k' : string) (ps : Props) :
  k' <> k -> get_prop k' (rest_without k ps) = get_prop k' ps.
Proof.
  intros Hne. induction ps as [|[k0 v] ps IH]; simpl; [reflexivity|].
  destruct (String.eqb_spec k0 k) as [->|Hk0]; simpl.
  - destruct (String.eqb_spec k' k) as [->|_]; [contradiction|exact IH].
  - destruct (String.eqb k' k0); [reflexivity|exact IH].
Qed.

Lemma has_prop_rest (k : string) (ps : Props) :
  has_prop k (rest_without k ps) = false.
Proof.
  induction ps as [|[k' v] ps IH]; simpl; [reflexivity|].
  destruct (String.eqb_spec k' k) as [->|Hne]; simpl; [exact IH|].
  destruct (String.eqb_spec k' k) as [->|_]; [contradiction|exact IH].
Qed.

Lemma has_prop_get (k : string) (ps : Props) :
  has_prop k ps = false <-> get_prop k ps = None.
Proof.
  induction ps as [|[k' v] ps IH]; simpl; [tauto|].
  rewrite (String.eqb_sym k' k).
  destruct (String.eqb k k'); simpl; [split; discriminate|exact IH].
Qed.

Lemma rest_without_absent (k : string) (ps : Props) :
  get_prop k ps = None -> rest_without k ps = ps.
Proof.
  induction ps as [|[k' v] ps IH]; simpl; [reflexivity|].
  rewrite (String.eqb_sym k' k).
  destruct (String.eqb k k'); [discriminate|].
  intros H. simpl. f_equal. exact (IH H).
Qed.

(** A falsy value contributes the same query entries as an absent key. *)
Lemma truthy_entry_rest (k k' : string) (ps : Props) :
  Conv.ToBoolean (get_prop k ps) = false ->
  truthy_entry k' (rest_without k ps) = truthy_entry k' ps.
Proof.
  intros Hfalsy. unfold truthy_entry.
  destruct (String.eqb_spec k' k) as [->|Hne].
  - rewrite get_prop_rest_same, Hfalsy. reflexivity.
  - rewrite (get_prop_rest_other _ _ _ Hne). reflexivity.
Qed.

Lemma query_entries_rest (k : string) (keys : list string) (ps : Props) :
  Conv.ToBoolean (get_prop k ps) = false ->
  query_entries keys (rest_without k ps) = query_entries keys ps.
Proof.
  intros Hfalsy. induction keys as [|k' keys IH]; [reflexivity|].
  cbn [query_entries]. rewrite IH, (truthy_entry_rest _ _ _ Hfalsy).
  reflexivity.
Qed.

Lemma elem_of_truthy_entry (k : string) (ps : Props) (e : string * string)
    (entry : list (string * string)) :
  truthy_entry k ps = Some entry ->
  e ∈ entry
  <-> exists v, get_prop k ps = Some v /\ Conv.ToBoolean (Some v) = true
                /\ exists s, Conv.ToStringJson v = Some s /\ e = (k, s).
Proof.
  unfold truthy_entry. destruct (get_prop k ps) as [v|] eqn:Hv.
  - destruct (Conv.ToBoolean (Some v)) eqn:Hb.
    + cbn [Conv.ToString]. destruct (Conv.ToStringJson v) as [s|] eqn:Hs;
        [|discriminate].
      intros [= <-]. rewrite list_elem_of_singleton. split.
      * intros ->. eauto 8.
      * intros (v' & [= <-] & _ & s' & Hs' & ->). congruence.
    + intros [= <-]. split.
      * intros He. apply elem_of_nil in He. contradiction.
      * intros (v' & [= <-] & Hb' & _). congruence.
  - cbn [Conv.ToBoolean]. intros [= <-]. split.
    + intros He. apply elem_of_nil in He. contradiction.
    + intros (v' & Hv' & _). discriminate.
Qed.

Lemma truthy_entry_fails (k : string) (ps : Props) :
  truthy_entry k ps = None
  <-> exists v, get_prop k ps = Some v /\ Conv.ToBoolean (Some v) = true
                /\ Conv.ToStringJson v = None.
Proof.
  unfold truthy_entry. destruct (get_prop k ps) as [v|] eqn:Hv.
  - destruct (Conv.ToBoolean (Some v)) eqn:Hb.
    + cbn [Conv.ToString]. destruct (Conv.ToStringJson v) as [s|] eqn:Hs.
      * split; [discriminate|]. intros (v' & [= <-] & _ & Hs'). congruence.
      * split; [eauto|reflexivity].
    + split; [discriminate|]. intros (v' & [= <-] & Hb' & _). congruence.
  - cbn [Conv.ToBoolean]. split; [discriminate|].
    intros (v' & Hv' & _). discriminate.
Qed.

(** The entries of a sequence of guarded appends: one for each key with a
    truthy value, when every such value converts; otherwise some key holds
    a truthy value whose conversion throws. *)
Lemma query_entries_spec (keys : list string) (ps : Props) :
  match query_entries keys ps with
  | Some entries =>
      forall k s, (k, s) ∈ entries
        <-> k ∈ keys
            /\ exists v, get_prop k ps = Some v
                         /\ Conv.ToBoolean (Some v) = true
                         /\ Conv.ToStringJson v = Some s
  | None =>
      exists k v, k ∈ keys /\ get_prop k ps = Some v
                  /\ Conv.ToBoolean (Some v) = true
                  /\ Conv.ToStringJson v = None
  end.
Proof.
  induction keys as [|k0 keys IH]; cbn [query_entries].
  - intros k s. split.
    + intros H. apply elem_of_nil in H. contradiction.
    + intros [H _]. apply elem_of_nil in H. contradiction.
  - destruct (truthy_entry k0 ps) as [e|] eqn:He.
    + destruct (query_entries keys ps) as [es|].
      * intros k s. rewrite elem_of_app, (elem_of_truthy_entry _ _ _ _ He), IH.
        rewrite elem_of_cons. split.
        -- intros [(v & Hv & Hb & s' & Hs & [= -> ->]) | [Hk Hrest]].
           ++ split; [left; reflexivity | eauto].
           ++ split; [right; exact Hk | exact Hrest].
        -- intros [[-> | Hk] (v & Hv & Hb & Hs)].
           ++ left. eauto 8.
           ++ right. split; [exact Hk | eauto].
      * destruct IH as (k & v & Hk & H). exists k, v.
        split; [apply list_elem_of_further, Hk | exact H].
    + apply truthy_entry_fails in He as (v & H). exists k0, v.
      split; [apply list_elem_of_here | exact H].
Qed.

Lemma append_nil_r (s : string) : s +:+ "" = s.
Proof.
  induction s as [|c s IH]; [reflexivity|].
  change (String c (s +:+ "") = String c s). f_equal. exact IH.
Qed.

Lemma append_assoc (a b c : string) : (a +:+ b) +:+ c = a +:+ (b +:+ c).
Proof.
  induction a as [|x a IH]; [reflexivity|].
  change (String x ((a +:+ b) +:+ c) = String x (a +:+ (b +:+ c))).
  f_equal. exact IH.
Qed.

Lemma occurs_in_refl (needle : string) : occurs_in needle needle.
Proof. exists "", "". rewrite append_nil_r. reflexivity. Qed.

Lemma occurs_in_app_r (needle pre s : string) :
  occurs_in needle s -> occurs_in needle (pre +:+ s).
Proof.
  intros (a & b & ->). exists (pre +:+ a), b. rewrite append_assoc. reflexivity.
Qed.

Lemma occurs_in_app_l (needle s post : string) :
  occurs_in needle s -> occurs_in needle (s +:+ post).
Proof.
  intros (a & b & ->). exists a, (b +:+ post).
  rewrite !append_assoc. reflexivity.
Qed.

Lemma unknown_eqb (name : string) :
  name ∉ tool_names ->
  Forall (fun k => String.eqb name k = false) tool_names.
Proof.
  intros H. apply Forall_forall. intros k Hk.
  apply String.eqb_neq. intros ->. exact (H Hk).
Qed.

(** ** Running the transport helper and the dispatcher *)

(** Case analysis on a listed tool name. *)
Ltac listed H :=
  unfold tool_names, tools in H; cbn [map name inputSchema] in H;
  repeat (apply elem_of_cons in H as [-> | H]);
  [ .. | apply elem_of_nil in H; contradiction ].

(** How a run ended, against what was expected of it: the completion, the
    requests added to the log, and stores that only grew at the end. *)
Definition ran (out : Completion Json * World) (objs : list Props)
    (sps : list (list (string * string))) (wr : list Request)
    (expected : Completion Json * list Request) : Prop :=
  out.1 = expected.1
  /\ wire out.2 = (wr ++ expected.2)%list
  /\ (exists new, objects out.2 = (objs ++ new)%list)
  /\ (exists sps', searchParams out.2 = (sps ++ sps')%list).

Section Dispatch.

Variables url key : string.
Variable remote : Request -> FetchResult.

Abbreviation call := (call_tool url key remote).

Lemma settle_json (r : Response) (w : World) :
  (if negb (ok r)
   then errorData ← catch (json r) (fun _ => mret (JObj []));
        throw (ThrowError ("Volkern API Error ("
                           +:+ Conv.NumberToString (status r) +:+ "): "
                           +:+ JSON.stringify errorData))
   else json r) w
  = (settle (Responded r), w).
Proof.
  unfold settle, api_error, error_payload, json, catch, throw, mbind, Js_bind,
    mret, Js_ret.
  destruct (ok r), (body r); reflexivity.
Qed.

Lemma volkernRequest_run ep m b objs sps wr bps :
  match b with Some l => objs !! l = Some bps | None => True end ->
  let meth := default "GET" m in
  let init := request_init key meth (match b with Some _ => Some bps | None => None end) in
  let rq := mkRequest (url +:+ ep) init in
  volkernRequest url key remote ep m b (mkWorld objs sps wr)
  = (settle (remote rq), mkWorld (objs ++ [init]) sps (wr ++ [rq])).
Proof.
  intros Hb meth init rq. subst rq init. unfold volkernRequest.
  fold meth. 
  unfold request_init.
  destruct b as [l|].
  - destruct (String.eqb meth "GET") eqn:Hm.
    + cbn [negb when]. unfold fetch, new_object, read_object, mbind, Js_bind, mret, Js_ret.
      cbn [objects searchParams wire].
      rewrite list_lookup_middle by reflexivity. cbn [default from_option id].
      destruct (remote _) as [e|r]; [reflexivity|].
      apply settle_json.
    + cbn [negb when]. unfold fetch, new_object, read_object, assign, mbind, Js_bind, mret, Js_ret.
      cbn [objects searchParams wire].
      rewrite (lookup_snoc_live _ _ _ _ Hb). cbn [default from_option id].
      rewrite alter_snoc.
      rewrite list_lookup_middle by reflexivity. cbn [default from_option id].
      destruct (remote _) as [e|r]; [reflexivity|].
      apply settle_json.
  - unfold fetch, new_object, read_object, mbind, Js_bind, mret, Js_ret.
    cbn [objects searchParams wire].
    rewrite list_lookup_middle by reflexivity. cbn [default from_option id].
    destruct (remote _) as [e|r]; [reflexivity|].
    apply settle_json.
Qed.

Lemma volkernRequest_get ep objs sps wr :
  let init := request_init key "GET" None in
  let rq := mkRequest (url +:+ ep) init in
  volkernRequest url key remote ep None None (mkWorld objs sps wr)
  = (settle (remote rq), mkWorld (objs ++ [init]) sps (wr ++ [rq])).
Proof. intros. apply (volkernRequest_run ep None None objs sps wr []). exact I. Qed.

Lemma volkernRequest_send ep m l objs sps wr bps :
  objs !! l = Some bps ->
  let init := request_init key m (Some bps) in
  let rq := mkRequest (url +:+ ep) init in
  volkernRequest url key remote ep (Some m) (Some l) (mkWorld objs sps wr)
  = (settle (remote rq), mkWorld (objs ++ [init]) sps (wr ++ [rq])).
Proof. intros H. apply (volkernRequest_run ep (Some m) (Some l) objs sps wr bps H). Qed.

(** Reading a live reference, in the form [read_object] leaves it. *)
Lemma read_live (a : nat) (objs : list Props) (ps : Props) :
  objs !! a = Some ps ->
  default [] (@lookup loc (list (string * Json)) (list Props)
                (@list_lookup Props) a objs) = ps.
Proof. intros Ha. exact (f_equal (default []) Ha). Qed.

Lemma get_live (a : nat) (k : string) objs sps wr (ps : Props) :
  objs !! a = Some ps ->
  get (Some a) k (mkWorld objs sps wr)
  = (Normal (get_prop k ps), mkWorld objs sps wr).
Proof.
  intros Ha. cbv [get mbind Js_bind mret Js_ret read_object objects].
  rewrite (read_live a objs ps Ha). reflexivity.
Qed.

Lemma destructure_live (a : nat) (k : string) objs sps wr (ps : Props) :
  objs !! a = Some ps ->
  destructure_rest (Some a) k (mkWorld objs sps wr)
  = (Normal (get_prop k ps, length objs),
     mkWorld (objs ++ [rest_without k ps])%list sps wr).
Proof.
  intros Ha.
  cbv [destructure_rest mbind Js_bind mret Js_ret read_object new_object
       objects searchParams wire].
  rewrite !(read_live a objs ps Ha). reflexivity.
Qed.

Lemma js_String_run (v : option Json) (w : World) :
  js_String v w
  = match Conv.ToString v with
    | Some s => (Normal s, w)
    | None => (Abrupt conversion_error, w)
    end.
Proof. unfold js_String. destruct (Conv.ToString v); reflexivity. Qed.

Lemma append_at (k v : string) objs sps es wr :
  append (length sps) k v (mkWorld objs (sps ++ [es])%list wr)
  = (Normal tt, mkWorld objs (sps ++ [es ++ [(k, v)]])%list wr).
Proof. cbv [append objects searchParams wire]. rewrite alter_snoc. reflexivity. Qed.

Lemma params_toString_at objs sps es wr :
  params_toString (length sps) (mkWorld objs (sps ++ [es])%list wr)
  = (Normal (Url.serialize es), mkWorld objs (sps ++ [es])%list wr).
Proof.
  cbv [params_toString searchParams].
  rewrite list_lookup_middle by reflexivity. reflexivity.
Qed.

Lemma append_if_truthy_at (a : nat) (ps : Props) objs sps es wr k :
  objs !! a = Some ps ->
  append_if_truthy (Some a) (length sps) k (mkWorld objs (sps ++ [es])%list wr)
  = match truthy_entry k ps with
    | Some e => (Normal tt, mkWorld objs (sps ++ [es ++ e])%list wr)
    | None => (Abrupt conversion_error, mkWorld objs (sps ++ [es])%list wr)
    end.
Proof.
  intros Ha. unfold append_if_truthy, truthy_entry.
  cbv [mbind Js_bind]. rewrite (get_live a k objs _ wr ps Ha).
  destruct (Conv.ToBoolean (get_prop k ps)); cbn [when].
  - rewrite js_String_run.
    destruct (Conv.ToString (get_prop k ps)) as [s|]; [|reflexivity].
    rewrite append_at. reflexivity.
  - rewrite app_nil_r. reflexivity.
Qed.

Lemma ran_intro (c : Completion Json) objs sps wr new sps' reqs
    (expected : Completion Json * list Request) :
  expected = (c, reqs) ->
  ran (c, mkWorld (objs ++ new)%list (sps ++ sps')%list (wr ++ reqs)%list)
      objs sps wr expected.
Proof. intros ->. repeat split; cbn [fst snd objects searchParams wire]; eauto. Qed.

Ltac split_option :=
  lazymatch goal with
  | |- context [match ?c with Some _ => (Normal _, _) | None => _ end] =>
      destruct c
  end.

Ltac ran_done :=
  unfold ran, outcome;
  cbn [converted query_entries option_map fst snd objects searchParams wire];
  rewrite ?app_nil_r, <- ?app_assoc; cbn [app];
  split; [reflexivity|];
  split; [first [reflexivity | symmetry; apply app_nil_r]|];
  split;
    first [ eexists; rewrite <- ?app_assoc; reflexivity
          | exists []; symmetry; apply app_nil_r ].

Ltac js_step Ha :=
  cbv beta iota zeta;
  first
    [ progress change (new_URLSearchParams (mkWorld ?o ?s ?w))
        with (Normal (length s), mkWorld o (s ++ [[]])%list w)
    | progress change (new_object ?ps (mkWorld ?o ?s ?w))
        with (Normal (length o), mkWorld (o ++ [ps])%list s w)
    | erewrite get_live by exact Ha
    | erewrite destructure_live by exact Ha
    | rewrite js_String_run; cbn [Conv.ToString]; split_option
    | erewrite append_if_truthy_at by exact Ha; split_option
    | rewrite append_at
    | rewrite params_toString_at
    | rewrite volkernRequest_get
    | erewrite volkernRequest_send by exact Ha
    | erewrite volkernRequest_send by (apply list_lookup_middle; reflexivity)
    | erewrite (volkernRequest_run _ _ None _ _ _ []) by exact I ].

Ltac js_run Ha :=
  unfold handleToolCall, build_request, build_request_absent;
  cbn [switch String.eqb Ascii.eqb Bool.eqb];
  cbv [mbind Js_bind mret Js_ret];
  cbn [query_entries];
  repeat js_step Ha;
  cbv beta iota zeta;
  try ran_done.

(** [handleToolCall] started in any store in which the argument reference
    is live: it completes, and sends, as the closed form says. *)
Lemma handle_run_any (n : string) (a : nat) ps objs sps wr :
  objs !! a = Some ps ->
  ran (handleToolCall url key remote n (Some a) (mkWorld objs sps wr))
      objs sps wr (outcome url key remote (build_request n ps)).
Proof.
  intros Ha. destruct (decide (n ∈ tool_names)) as [Hin | Hout].
  - listed Hin.
    all: try (js_run Ha; fail).
    all: try (js_run Ha; destruct (get_prop "activo" ps) as [activo|];
              [ rewrite bool_decide_true by done
              | rewrite bool_decide_false
                  by (intros Hne; apply Hne; reflexivity) ];
              cbv [when mbind Js_bind mret Js_ret];
              repeat js_step Ha; cbv beta iota zeta; ran_done).
  - unfold handleToolCall, build_request.
    rewrite !switch_miss by exact (unknown_eqb n Hout).
    unfold ran, outcome. cbn [fst snd objects searchParams wire].
    split; [reflexivity|]. split; [symmetry; apply app_nil_r|].
    split; exists []; symmetry; apply app_nil_r.
Qed.

Ltac js_run_absent :=
  unfold handleToolCall, build_request_absent;
  cbn [switch String.eqb Ascii.eqb Bool.eqb];
  cbv [mbind Js_bind mret Js_ret get destructure_rest append_if_truthy throw
       new_URLSearchParams objects searchParams wire];
  try erewrite (volkernRequest_run _ _ None _ _ _ []) by exact I;
  ran_done.

(** [handleToolCall] when the request has no [arguments]. *)
Lemma handle_absent_any (n : string) objs sps wr :
  ran (handleToolCall url key remote n None (mkWorld objs sps wr))
      objs sps wr (outcome url key remote (build_request_absent n)).
Proof.
  destruct (decide (n ∈ tool_names)) as [Hin | Hout].
  - listed Hin; js_run_absent.
  - unfold handleToolCall, build_request_absent.
    rewrite !switch_miss by exact (unknown_eqb n Hout).
    unfold ran, outcome. cbn [fst snd objects searchParams wire].
    split; [reflexivity|]. split; [symmetry; apply app_nil_r|].
    split; exists []; symmetry; apply app_nil_r.
Qed.

Lemma envelope_result (c : Completion Json) (w : World) :
  match c with
  | Normal result =>
      (mkResult [mkContent "text" (JSON.stringify_pretty 2 result)] None, w)
  | Abrupt error =>
      (mkResult [mkContent "text"
                   ("Error: " +:+ match error with
                                  | ThrowError message => message
                                  end)] (Some true), w)
  end = (envelope c, w).
Proof. destruct c as [payload|[message]]; reflexivity. Qed.

Lemma handler_of_run (n : string) (args : option loc) (w : World) :
  CallToolRequest url key remote n args w
  = (envelope (handleToolCall url key remote n args w).1,
     (handleToolCall url key remote n args w).2).
Proof.
  unfold CallToolRequest.
  destruct (handleToolCall url key remote n args w) as [c w'].
  apply envelope_result.
Qed.

(** A call on its own: the result and the log are those of the closed
    form, and the argument object is still first in the store. *)
Lemma call_tool_run (n : string) (ps : Props) :
  exists new sps',
    call n ps
    = (envelope (outcome url key remote (build_request n ps)).1,
       mkWorld (ps :: new) sps' (outcome url key remote (build_request n ps)).2).
Proof.
  pose proof (handle_run_any n 0 ps [ps] [] [] eq_refl) as Hran.
  unfold call_tool. rewrite handler_of_run.
  destruct (handleToolCall url key remote n (Some 0%nat) (mkWorld [ps] [] []))
    as [c [objs sps wr]].
  destruct Hran as (Hc & Hwire & (new & Hnew) & (sps' & Hsps)).
  cbn [fst snd objects searchParams wire app] in *. subst.
  exists new, sps'. reflexivity.
Qed.

Lemma call_absent_run (n : string) :
  exists new sps',
    call_tool_without_arguments url key remote n
    = (envelope (outcome url key remote (build_request_absent n)).1,
       mkWorld new sps' (outcome url key remote (build_request_absent n)).2).
Proof.
  pose proof (handle_absent_any n [] [] []) as Hran.
  unfold call_tool_without_arguments, empty_world. rewrite handler_of_run.
  destruct (handleToolCall url key remote n None (mkWorld [] [] []))
    as [c [objs sps wr]].
  destruct Hran as (Hc & Hwire & (new & Hnew) & (sps' & Hsps)).
  cbn [fst snd objects searchParams wire app] in *. subst.
  exists new, sps'. reflexivity.
Qed.

Lemma build_request_registered (n : string) (ps : Props) :
  n ∈ tool_names ->
  build_request n ps <> Abrupt (ThrowError ("Unknown tool: " +:+ n)).
Proof.
  intros Hin. listed Hin; unfold build_request;
    cbn [switch String.eqb Ascii.eqb Bool.eqb]; cbv beta zeta;
    unfold converted, conversion_error;
    repeat match goal with
           | |- context [match ?o with Some _ => _ | None => _ end] =>
               destruct o
           end;
    discriminate.
Qed.

Lemma handle_unknown (n : string) (args : option loc) (w : World) :
  n ∉ tool_names ->
  handleToolCall url key remote n args w
  = (Abrupt (ThrowError ("Unknown tool: " +:+ n)), w).
Proof.
  intros H. unfold handleToolCall. rewrite switch_miss; [reflexivity|].
  exact (unknown_eqb n H).
Qed.

Lemma build_request_miss (n : string) (ps : Props) :
  n ∉ tool_names ->
  build_request n ps = Abrupt (ThrowError ("Unknown tool: " +:+ n)).
Proof.
  intros H. unfold build_request. rewrite switch_miss; [reflexivity|].
  exact (unknown_eqb n H).
Qed.

Lemma build_request_absent_miss (n : string) :
  n ∉ tool_names ->
  build_request_absent n = Abrupt (ThrowError ("Unknown tool: " +:+ n)).
Proof.
  intros H. unfold build_request_absent. rewrite switch_miss; [reflexivity|].
  exact (unknown_eqb n H).
Qed.

Lemma call_tool_sends (n : string) (ps : Props) (rs : RequestSpec) :
  build_request n ps = Normal rs ->
  payload rs = None \/ String.eqb (method rs) "GET" = false ->
  sends (call n ps).2 (url +:+ path rs) (method rs) (payload rs).
Proof.
  intros Hrs Hbody. destruct (call_tool_run n ps) as (new & sps' & ->).
  rewrite Hrs. cbn [outcome snd]. exists (request_of url key rs).
  cbn [wire]. split; [reflexivity|]. split; [reflexivity|].
  unfold request_of, req_method, req_body, request_init. cbn [req_init].
  destruct (payload rs) as [bps|]; [|split; reflexivity].
  destruct Hbody as [Hnone | Hm]; [discriminate|]. rewrite Hm.
  split; reflexivity.
Qed.

Lemma call_tool_throws (n : string) (ps : Props) (m : string) :
  build_request n ps = Abrupt (ThrowError m) ->
  (call n ps).1 = Failure m /\ wire (call n ps).2 = [].
Proof.
  intros Hrs. destruct (call_tool_run n ps) as (new & sps' & ->).
  rewrite Hrs. split; reflexivity.
Qed.

Lemma call_tool_conversion (n : string) (ps : Props) :
  build_request n ps = Abrupt conversion_error ->
  conversion_failure (call n ps).
Proof. intros Hrs. exact (call_tool_throws n ps _ Hrs). Qed.

(** A sent request is the one of the closed form. *)
Lemma call_tool_sent (n : string) (ps : Props) (rq : Request) :
  rq ∈ wire (call n ps).2 ->
  exists rs,
    build_request n ps = Normal rs /\ rq = request_of url key rs
    /\ (call n ps).1 = envelope (settle (remote rq))
    /\ wire (call n ps).2 = [rq].
Proof.
  destruct (call_tool_run n ps) as (new & sps' & ->).
  destruct (build_request n ps) as [rs|e]; cbn [outcome fst snd wire].
  - intros Hrq. apply list_elem_of_singleton in Hrq as ->. eauto.
  - intros Hrq. apply elem_of_nil in Hrq. contradiction.
Qed.

Ltac sends_or_fails E :=
  first
    [ eapply call_tool_sends with (rs := mkSpec _ _ _);
      [ unfold build_request; cbn [switch String.eqb Ascii.eqb Bool.eqb];
        cbv beta zeta; rewrite ?E; reflexivity
      | first [left; reflexivity | right; reflexivity] ]
    | apply call_tool_conversion; unfold build_request;
      cbn [switch String.eqb Ascii.eqb Bool.eqb]; cbv beta zeta;
      rewrite ?E; reflexivity ].

(** ** The claims *)

(** C1. A tool name that the registry does not list makes the handler
    return the error result with the text Error: Unknown tool: <name>,
    which contains the name; nothing is thrown to the caller, and the
    world (store and network log) is left as it was.  This holds whether
    or not the request has arguments. *)
Theorem unknown_tool_reported (name : string) (args : option loc)
    (w : World) :
  name ∉ tool_names ->
  CallToolRequest url key remote name args w
  = (mkResult [mkContent "text" ("Error: Unknown tool: " +:+ name)]
              (Some true), w)
  /\ occurs_in name ("Error: Unknown tool: " +:+ name).
Proof.
  intros H. split.
  - unfold CallToolRequest. rewrite handle_unknown by exact H. reflexivity.
  - apply occurs_in_app_r, occurs_in_refl.
Qed.


(** C3. When the remote API answers the request of a call with a status
    outside 200-299, the result is the error result whose text embeds the
    status in decimal and the JSON text of the error payload, the payload
    being the parsed body or the empty object when the body is not JSON;
    that request is the only one the call sent (no retry).  A 409 with
    body error slot_taken for volkern_create_cita gives a text that
    contains 409 and slot_taken. *)
Theorem remote_rejection_reported (name : string) (ps : Props)
    (rq : Request) (r : Response) :
  rq ∈ wire (call name ps).2 ->
  remote rq = Responded r ->
  ok r = false ->
  let errorData :=
    match body r with JsonBody j => j | OtherBody _ => JObj [] end in
  let text :=
    "Error: Volkern API Error (" +:+ Conv.NumberToString (status r)
    +:+ "): " +:+ JSON.stringify errorData in
  (call name ps).1 = mkResult [mkContent "text" text] (Some true)
  /\ wire (call name ps).2 = [rq]
  /\ occurs_in (Conv.NumberToString (status r)) text
  /\ occurs_in (JSON.stringify errorData) text
  /\ let conflict :=
       (call_tool url key
          (fun _ => Responded
             (mkResponse 409 (JsonBody (JObj [("error", JStr "slot_taken")]))))
          "volkern_create_cita"
          [("leadId", JStr "abc123");
           ("fechaHora", JStr "2026-02-10T10:00:00Z")]).1 in
     isError conflict = Some true
     /\ exists t, content conflict = [mkContent "text" t]
                  /\ occurs_in "409" t /\ occurs_in "slot_taken" t.
Proof.
  intros Hsent Hremote Hok errorData text.
  destruct (call_tool_sent name ps rq Hsent) as (rs & _ & _ & -> & ->).
  rewrite Hremote. unfold settle. rewrite Hok.
  split; [reflexivity|]. split; [reflexivity|].
  split; [|split; [|split]].
  - subst text.
    change (occurs_in (Conv.NumberToString (status r))
              ("Error: Volkern API Error ("
               +:+ (Conv.NumberToString (status r)
                    +:+ "): " +:+ JSON.stringify errorData))).
    apply occurs_in_app_r, occurs_in_app_l, occurs_in_refl.
  - subst text.
    change (occurs_in (JSON.stringify errorData)
              ("Error: Volkern API Error ("
               +:+ (Conv.NumberToString (status r)
                    +:+ ("): " +:+ JSON.stringify errorData)))).
    apply occurs_in_app_r, occurs_in_app_r, occurs_in_app_r, occurs_in_refl.
  - reflexivity.
  - eexists. split; [reflexivity|]. split.
    + exists "Error: Volkern API Error (",
        ("): {" +:+ JSON.dquote +:+ "error" +:+ JSON.dquote +:+ ":"
         +:+ JSON.dquote +:+ "slot_taken" +:+ JSON.dquote +:+ "}").
      reflexivity.
    + exists ("Error: Volkern API Error (409): {" +:+ JSON.dquote +:+ "error"
              +:+ JSON.dquote +:+ ":" +:+ JSON.dquote),
        (JSON.dquote +:+ "}").
      reflexivity.
Qed.

(** C4. Each of the five tools that take an identifier for the path sends
    the residual object, the arguments without the identifier key, as its
    JSON body, so the identifier is never a key of the body, and the path
    holds the identifier's string conversion; when the identifier cannot
    be converted to a string the call fails with the TypeError and sends
    nothing.  For volkern_update_lead with leadId abc123 and nombre X the
    request is a PATCH to /leads/abc123 whose body is the object with
    nombre X alone. *)
Theorem path_identifier_stripped (ps : Props) :
  match Conv.ToString (get_prop "leadId" ps) with
  | Some id =>
      sends (call "volkern_update_lead" ps).2 (url +:+ "/leads/" +:+ id)
        "PATCH" (Some (rest_without "leadId" ps))
      /\ sends (call "volkern_create_task" ps).2
           (url +:+ "/leads/" +:+ id +:+ "/tasks")
           "POST" (Some (rest_without "leadId" ps))
      /\ sends (call "volkern_create_interaction" ps).2
           (url +:+ "/leads/" +:+ id +:+ "/interactions")
           "POST" (Some (rest_without "leadId" ps))
      /\ sends (call "volkern_create_note" ps).2
           (url +:+ "/leads/" +:+ id +:+ "/notes")
           "POST" (Some (rest_without "leadId" ps))
  | None =>
      conversion_failure (call "volkern_update_lead" ps)
      /\ conversion_failure (call "volkern_create_task" ps)
      /\ conversion_failure (call "volkern_create_interaction" ps)
      /\ conversion_failure (call "volkern_create_note" ps)
  end
  /\ match Conv.ToString (get_prop "citaId" ps) with
     | Some id =>
         sends (call "volkern_update_cita" ps).2 (url +:+ "/citas/" +:+ id)
           "PATCH" (Some (rest_without "citaId" ps))
     | None => conversion_failure (call "volkern_update_cita" ps)
     end
  /\ has_prop "leadId" (rest_without "leadId" ps) = false
  /\ has_prop "citaId" (rest_without "citaId" ps) = false
  /\ sends (call "volkern_update_lead"
              [("leadId", JStr "abc123"); ("nombre", JStr "X")]).2
       (url +:+ "/leads/abc123") "PATCH" (Some [("nombre", JStr "X")]).
Proof.
  split; [|split; [|split; [|split]]]; try apply has_prop_rest.
  - destruct (Conv.ToString (get_prop "leadId" ps)) as [id|] eqn:E;
      repeat split; sends_or_fails E.
  - destruct (Conv.ToString (get_prop "citaId" ps)) as [id|] eqn:E;
      sends_or_fails E.
  - sends_or_fails I.
Qed.

(** C5. volkern_list_leads with estado nuevo and page 2 asks for
    /leads?estado=nuevo&page=2 and nothing more.  In general the query
    holds an entry exactly for the keys among estado, canal, search, page
    and limit that the arguments supply with a truthy value, each with the
    string conversion of the supplied value (a number or a boolean becomes
    its text), so a key that is not supplied is not in the query; when
    such a value cannot be converted to a string the call fails with the
    TypeError and sends nothing. *)
Theorem list_leads_query (ps : Props) :
  sends (call "volkern_list_leads"
           [("estado", JStr "nuevo"); ("page", JNum 2)]).2
    (url +:+ "/leads?estado=nuevo&page=2") "GET" None
  /\ match query_entries ["estado"; "canal"; "search"; "page"; "limit"] ps with
     | Some entries =>
         sends (call "volkern_list_leads" ps).2
           (url +:+ "/leads?" +:+ Url.serialize entries) "GET" None
         /\ forall k s, (k, s) ∈ entries
              <-> k ∈ ["estado"; "canal"; "search"; "page"; "limit"]
                  /\ exists v, get_prop k ps = Some v
                               /\ Conv.ToBoolean (Some v) = true
                               /\ Conv.ToStringJson v = Some s
     | None =>
         conversion_failure (call "volkern_list_leads" ps)
         /\ exists k v, k ∈ ["estado"; "canal"; "search"; "page"; "limit"]
                        /\ get_prop k ps = Some v
                        /\ Conv.ToBoolean (Some v) = true
                        /\ Conv.ToStringJson v = None
     end
  /\ Conv.ToStringJson (JNum 2) = Some "2"
  /\ Conv.ToStringJson (JBool true) = Some "true"
  /\ Conv.ToStringJson (JBool false) = Some "false".
Proof.
  split; [sends_or_fails I|]. split; [|repeat split].
  pose proof (query_entries_spec
                ["estado"; "canal"; "search"; "page"; "limit"] ps) as Hspec.
  destruct (query_entries ["estado"; "canal"; "search"; "page"; "limit"] ps)
    as [entries|] eqn:E; (split; [sends_or_fails E | exact Hspec]).
Qed.






Lemma read_message_undefined (k : string) :
  occurs_in "undefined"
    ("Cannot read properties of undefined (reading '" +:+ k +:+ "')").
Proof.
  apply occurs_in_app_l. exists "Cannot read properties of ", " (reading '".
  reflexivity.
Qed.

Lemma destructure_message_undefined (k : string) :
  occurs_in "undefined"
    ("Cannot destructure property '" +:+ k
     +:+ "' of 'args' as it is undefined.").
Proof.
  apply occurs_in_app_r, occurs_in_app_r.
  exists "' of 'args' as it is ", ".". reflexivity.
Qed.

Lemma build_request_absent_outcomes (n : string) :
  n ∈ tool_names ->
  (exists endpoint, build_request_absent n = Normal (mkSpec endpoint "POST" None))
  \/ (exists message,
        build_request_absent n = Abrupt (ThrowError message)
        /\ occurs_in "undefined" message).
Proof.
  intros Hin. listed Hin; unfold build_request_absent;
    cbn [switch String.eqb Ascii.eqb Bool.eqb]; cbv beta zeta;
    first [ left; eexists; reflexivity
          | right; eexists; split;
            [ reflexivity
            | first [ apply read_message_undefined
                    | apply destructure_message_undefined ] ] ].
Qed.



(** C7. volkern_get_lead with leadId abc123 sends a GET to /leads/abc123
    without a body.  [volkernRequest] puts a body on the request exactly
    when it is given a body object and the method is not GET. *)
Theorem get_lead_request (ep : string) (m : option string) (bps : Props) :
  sends (call "volkern_get_lead" [("leadId", JStr "abc123")]).2
    (url +:+ "/leads/abc123") "GET" None
  /\ (exists rq,
        wire (volkernRequest url key remote ep m (Some 0%nat)
                (mkWorld [bps] [] [])).2 = [rq]
        /\ req_body rq
           = if String.eqb (default "GET" m) "GET" then None
             else Some (JStr (JSON.stringify (JObj bps))))
  /\ (exists rq,
        wire (volkernRequest url key remote ep m None
                (mkWorld [bps] [] [])).2 = [rq]
        /\ req_body rq = None).
Proof.
  split; [|split].
  - sends_or_fails I.
  - erewrite (volkernRequest_run ep m (Some 0%nat) [bps] [] [] bps)
      by reflexivity.
    eexists. split; [reflexivity|].
    unfold req_body, request_init. cbn [req_init].
    destruct (String.eqb (default "GET" m) "GET"); reflexivity.
  - erewrite (volkernRequest_run ep m None [bps] [] [] []) by exact I.
    eexists. split; reflexivity.
Qed.

Lemma build_request_falsy (tool k : string) (ps : Props) :
  tool ∈ ["volkern_list_leads"; "volkern_list_citas";
          "volkern_list_conversaciones"] ->
  Conv.ToBoolean (get_prop k ps) = false ->
  build_request tool (rest_without k ps) = build_request tool ps.
Proof.
  intros Hin Hfalsy.
  repeat (apply elem_of_cons in Hin as [-> | Hin]);
    [ | | | apply elem_of_nil in Hin; contradiction ];
    unfold build_request; cbn [switch String.eqb Ascii.eqb Bool.eqb];
    cbv beta zeta; rewrite (query_entries_rest _ _ _ Hfalsy); reflexivity.
Qed.

Ltac residual :=
  unfold call_tool; rewrite handler_of_run; unfold handleToolCall;
  cbn [switch String.eqb Ascii.eqb Bool.eqb];
  cbv [mbind Js_bind mret Js_ret];
  erewrite destructure_live by reflexivity; cbv beta iota zeta;
  rewrite js_String_run;
  destruct (Conv.ToString _);
  [ erewrite volkernRequest_send by reflexivity | ];
  reflexivity.

(** C8. A call leaves the caller's argument object as it was: after the
    call the object is still at its place in the store with the same
    properties.  The residual object of the five tools that strip an
    identifier is a new object next to it.  What is sent is a function of
    the tool name and the arguments alone: the one request of the closed
    form, or nothing when the call throws before it; a field the arguments
    lack is simply not in the query or the body. *)
Theorem arguments_not_mutated (name : string) (ps : Props) :
  objects (call name ps).2 !! 0%nat = Some ps
  /\ wire (call name ps).2
     = match build_request name ps with
       | Normal rs => [request_of url key rs]
       | Abrupt _ => []
       end
  /\ objects (call "volkern_update_lead" ps).2 !! 1%nat
     = Some (rest_without "leadId" ps)
  /\ objects (call "volkern_update_cita" ps).2 !! 1%nat
     = Some (rest_without "citaId" ps)
  /\ objects (call "volkern_create_task" ps).2 !! 1%nat
     = Some (rest_without "leadId" ps)
  /\ objects (call "volkern_create_interaction" ps).2 !! 1%nat
     = Some (rest_without "leadId" ps)
  /\ objects (call "volkern_create_note" ps).2 !! 1%nat
     = Some (rest_without "leadId" ps)
  /\ sends (call "volkern_create_lead" ps).2 (url +:+ "/leads") "POST" (Some ps)
  /\ sends (call "volkern_list_leads" []).2 (url +:+ "/leads?") "GET" None.
Proof.
  split; [|split].
  - destruct (call_tool_run name ps) as (new & sps' & ->). reflexivity.
  - destruct (call_tool_run name ps) as (new & sps' & ->).
    destruct (build_request name ps); reflexivity.
  - repeat split; first [sends_or_fails I | residual].
Qed.

(** C9. For volkern_list_leads, volkern_list_citas and
    volkern_list_conversaciones an argument whose value is the number 0,
    the empty string or false changes nothing: the request and the result
    are those of the same arguments without that key.
    volkern_list_servicios with activo false asks for
    /servicios?activo=false. *)
Theorem falsy_value_is_omitted (tool k : string) (ps : Props) (v : Json) :
  tool ∈ ["volkern_list_leads"; "volkern_list_citas";
          "volkern_list_conversaciones"] ->
  get_prop k ps = Some v ->
  v = JNum 0 \/ v = JStr "" \/ v = JBool false ->
  wire (call tool ps).2 = wire (call tool (rest_without k ps)).2
  /\ (call tool ps).1 = (call tool (rest_without k ps)).1
  /\ sends (call "volkern_list_servicios" [("activo", JBool false)]).2
       (url +:+ "/servicios?activo=false") "GET" None.
Proof.
  intros Hin Hv Hfalsy.
  assert (Hb : Conv.ToBoolean (get_prop k ps) = false).
  { rewrite Hv. destruct Hfalsy as [-> | [-> | ->]]; reflexivity. }
  destruct (call_tool_run tool ps) as (new & sps & ->).
  destruct (call_tool_run tool (rest_without k ps)) as (new' & sps' & ->).
  rewrite (build_request_falsy tool k ps Hin Hb).
  split; [reflexivity|]. split; [reflexivity|].
  sends_or_fails I.
Qed.

(** C10. volkern_complete_task with a taskId sends a PATCH to
    /tasks/<taskId>, the string conversion of the identifier, whose body
    is the object with completada true alone; when the identifier cannot
    be converted to a string the call fails with the TypeError and sends
    nothing.  What is sent does not depend on any other argument. *)
Theorem complete_task_request (ps ps' : Props) (taskId : Json) :
  get_prop "taskId" ps = Some taskId ->
  get_prop "taskId" ps' = Some taskId ->
  match Conv.ToStringJson taskId with
  | Some id =>
      sends (call "volkern_complete_task" ps).2 (url +:+ "/tasks/" +:+ id)
        "PATCH" (Some [("completada", JBool true)])
  | None => conversion_failure (call "volkern_complete_task" ps)
  end
  /\ wire (call "volkern_complete_task" ps).2
     = wire (call "volkern_complete_task" ps').2
  /\ (call "volkern_complete_task" ps).1
     = (call "volkern_complete_task" ps').1
  /\ JSON.stringify (JObj [("completada", JBool true)])
     = "{" +:+ JSON.dquote +:+ "completada" +:+ JSON.dquote +:+ ":true}".
Proof.
  intros Hps Hps'.
  assert (Hsame : build_request "volkern_complete_task" ps
                  = build_request "volkern_complete_task" ps').
  { unfold build_request. cbn [switch String.eqb Ascii.eqb Bool.eqb].
    cbv beta zeta. rewrite Hps, Hps'. reflexivity. }
  split; [|split; [|split; [|reflexivity]]].
  - destruct (Conv.ToStringJson taskId) as [id|] eqn:E.
    + eapply call_tool_sends with (rs := mkSpec _ _ _); [|right; reflexivity].
      unfold build_request. cbn [switch String.eqb Ascii.eqb Bool.eqb].
      cbv beta zeta. rewrite Hps. cbn [Conv.ToString]. rewrite E. reflexivity.
    + apply call_tool_conversion.
      unfold build_request. cbn [switch String.eqb Ascii.eqb Bool.eqb].
      cbv beta zeta. rewrite Hps. cbn [Conv.ToString]. rewrite E. reflexivity.
  - destruct (call_tool_run "volkern_complete_task" ps) as (n1 & s1 & ->).
    destruct (call_tool_run "volkern_complete_task" ps') as (n2 & s2 & ->).
    rewrite Hsame. reflexivity.
  - destruct (call_tool_run "volkern_complete_task" ps) as (n1 & s1 & ->).
    destruct (call_tool_run "volkern_complete_task" ps') as (n2 & s2 & ->).
    rewrite Hsame. reflexivity.
Qed.

End Dispatch.

(** ** Concrete runs *)

(** A remote side that answers every request with the same response. *)
Definition always (r : Response) : Request -> FetchResult :=
  fun _ => Responded r.

Definition created : Response :=
  mkResponse 200 (JsonBody (JObj [("id", JStr "42")])).

Definition slot_taken : Response :=
  mkResponse 409 (JsonBody (JObj [("error", JStr "slot_taken")])).

Ltac registered :=
  unfold tool_names, tools; cbn [map name inputSchema];
  repeat first [apply list_elem_of_here | apply list_elem_of_further].

(** C1 at the name volkern_delete_lead, which the registry does not list. *)
Lemma unknown_tool_reported_witness :
  CallToolRequest "https://volkern.app/api" "secret" (always created)
    "volkern_delete_lead" (Some 0%nat)
    (mkWorld [[("leadId", JStr "abc123")]] [] [])
  = (mkResult [mkContent "text" "Error: Unknown tool: volkern_delete_lead"]
              (Some true),
     mkWorld [[("leadId", JStr "abc123")]] [] [])
  /\ occurs_in "volkern_delete_lead" "Error: Unknown tool: volkern_delete_lead".
Proof.
  apply (unknown_tool_reported "https://volkern.app/api" "secret"
           (always created) "volkern_delete_lead").
  intros H. apply list_elem_of_In in H. vm_compute in H.
  repeat (destruct H as [H | H]; [discriminate H|]). exact H.
Defined.

(** C3 at volkern_create_cita against a remote side that answers 409 with
    the body error slot_taken. *)
Lemma remote_rejection_reported_witness :
  (call_tool "https://volkern.app/api" "secret" (always slot_taken)
     "volkern_create_cita"
     [("leadId", JStr "abc123"); ("fechaHora", JStr "2026-02-10T10:00:00Z")]).1
  = mkResult
      [mkContent "text"
         ("Error: Volkern API Error (409): {" +:+ JSON.dquote +:+ "error"
          +:+ JSON.dquote +:+ ":" +:+ JSON.dquote +:+ "slot_taken"
          +:+ JSON.dquote +:+ "}")] (Some true)
  /\ length (wire (call_tool "https://volkern.app/api" "secret"
                     (always slot_taken) "volkern_create_cita"
                     [("leadId", JStr "abc123");
                      ("fechaHora", JStr "2026-02-10T10:00:00Z")]).2) = 1%nat.
Proof.
  assert (Hsent :
    mkRequest "https://volkern.app/api/citas"
      (request_init "secret" "POST"
         (Some [("leadId", JStr "abc123");
                ("fechaHora", JStr "2026-02-10T10:00:00Z")]))
    ∈ wire (call_tool "https://volkern.app/api" "secret" (always slot_taken)
              "volkern_create_cita"
              [("leadId", JStr "abc123");
               ("fechaHora", JStr "2026-02-10T10:00:00Z")]).2).
  { vm_compute. apply list_elem_of_here. }
  destruct (remote_rejection_reported "https://volkern.app/api" "secret"
              (always slot_taken) "volkern_create_cita"
              [("leadId", JStr "abc123");
               ("fechaHora", JStr "2026-02-10T10:00:00Z")]
              _ slot_taken Hsent eq_refl eq_refl)
    as (Hresult & Hone & _).
  split; [exact Hresult | rewrite Hone; reflexivity].
Defined.



(** C9 at volkern_list_leads with limit 0. *)
Lemma falsy_value_is_omitted_witness :
  wire (call_tool "https://volkern.app/api" "secret" (always created)
          "volkern_list_leads" [("estado", JStr "nuevo"); ("limit", JNum 0)]).2
  = wire (call_tool "https://volkern.app/api" "secret" (always created)
            "volkern_list_leads"
            (rest_without "limit" [("estado", JStr "nuevo"); ("limit", JNum 0)])).2
  /\ (call_tool "https://volkern.app/api" "secret" (always created)
        "volkern_list_leads" [("estado", JStr "nuevo"); ("limit", JNum 0)]).1
     = (call_tool "https://volkern.app/api" "secret" (always created)
          "volkern_list_leads"
          (rest_without "limit" [("estado", JStr "nuevo"); ("limit", JNum 0)])).1
  /\ sends (call_tool "https://volkern.app/api" "secret" (always created)
              "volkern_list_servicios" [("activo", JBool false)]).2
       ("https://volkern.app/api" +:+ "/servicios?activo=false") "GET" None.
Proof.
  apply (falsy_value_is_omitted "https://volkern.app/api" "secret"
           (always created) "volkern_list_leads" "limit"
           [("estado", JStr "nuevo"); ("limit", JNum 0)] (JNum 0)).
  - apply list_elem_of_here.
  - reflexivity.
  - left. reflexivity.
Defined.

(** C10 at taskId t1, once with and once without a further argument. *)
Lemma complete_task_request_witness :
  sends (call_tool "https://volkern.app/api" "secret" (always created)
           "volkern_complete_task"
           [("taskId", JStr "t1"); ("completada", JBool false)]).2
    ("https://volkern.app/api" +:+ "/tasks/" +:+ "t1") "PATCH"
    (Some [("completada", JBool true)])
  /\ wire (call_tool "https://volkern.app/api" "secret" (always created)
             "volkern_complete_task"
             [("taskId", JStr "t1"); ("completada", JBool false)]).2
     = wire (call_tool "https://volkern.app/api" "secret" (always created)
               "volkern_complete_task" [("taskId", JStr "t1")]).2.
Proof.
  destruct (complete_task_request "https://volkern.app/api" "secret"
              (always created)
              [("taskId", JStr "t1"); ("completada", JBool false)]
              [("taskId", JStr "t1")] (JStr "t1") eq_refl eq_refl)
    as (Hsends & Hwire & _).
  split; [exact Hsends | exact Hwire].
Defined.

(** * Further properties of the server *)

Ltac sends_or_fails E :=
  first
    [ eapply call_tool_sends with (rs := mkSpec _ _ _);
      [ unfold build_request; cbn [switch String.eqb Ascii.eqb Bool.eqb];
        cbv beta zeta; rewrite ?E; reflexivity
      | first [left; reflexivity | right; reflexivity] ]
    | apply call_tool_conversion; unfold build_request;
      cbn [switch String.eqb Ascii.eqb Bool.eqb]; cbv beta zeta;
      rewrite ?E; reflexivity ].


Section Coverage.

Variables url key : string.
Variable remote : Request -> FetchResult.

Abbreviation call := (call_tool url key remote).

(** The handler started in any store in which the argument reference is
    live: the result and the request are those of the call on its own, and
    the store, the parameter store and the log only grow at the end. *)
Lemma handler_run_any name (a : nat) ps objs sps wr :
  objs !! a = Some ps ->
  exists w',
    CallToolRequest url key remote name (Some a) (mkWorld objs sps wr)
    = ((call name ps).1, w')
    /\ wire w' = (wr ++ wire (call name ps).2)%list
    /\ (exists new, objects w' = (objs ++ new)%list)
    /\ (exists sps', searchParams w' = (sps ++ sps')%list).
Proof.
  intros Ha.
  pose proof (handle_run_any url key remote name a ps objs sps wr Ha) as Hran.
  destruct (call_tool_run url key remote name ps) as (new0 & sps0 & ->).
  rewrite handler_of_run.
  destruct (handleToolCall url key remote name (Some a) (mkWorld objs sps wr))
    as [c w'].
  destruct Hran as (Hc & Hwire & Hnew & Hsps). cbn [fst snd wire] in *.
  exists w'. rewrite Hc. auto.
Qed.

(** X2. Whatever else the store, the parameter store and the log hold when
    the handler starts, a call gives the result it gives on its own, adds
    to the log exactly the requests it sends on its own, and leaves every
    object that was in the store, the argument object included, as it
    was. *)
Theorem call_is_independent_of_the_store (name : string) (a : nat)
    (ps : Props) (objs : list Props) (sps : list (list (string * string)))
    (wr : list Request) :
  objs !! a = Some ps ->
  let out :=
    CallToolRequest url key remote name (Some a) (mkWorld objs sps wr) in
  out.1 = (call name ps).1
  /\ wire out.2 = (wr ++ wire (call name ps).2)%list
  /\ (forall (l : nat) (o : Props),
        objs !! l = Some o -> objects out.2 !! l = Some o).
Proof.
  intros Ha out. subst out.
  destruct (handler_run_any name a ps objs sps wr Ha)
    as (w' & -> & Hwire & (new & Hnew) & _).
  cbn [fst snd]. split; [reflexivity|]. split; [exact Hwire|].
  intros l o Hl. rewrite Hnew. apply lookup_app_l_Some, Hl.
Qed.

(** X3. Two calls handled one after the other in the same store, also when
    both refer to the same argument object, give the two results the calls
    give on their own, and the log gains the requests of the first call
    followed by those of the second. *)
Theorem calls_compose (n1 n2 : string) (a1 a2 : nat) (ps1 ps2 : Props)
    (objs : list Props) (sps : list (list (string * string)))
    (wr : list Request) :
  objs !! a1 = Some ps1 ->
  objs !! a2 = Some ps2 ->
  let first :=
    CallToolRequest url key remote n1 (Some a1) (mkWorld objs sps wr) in
  let second := CallToolRequest url key remote n2 (Some a2) first.2 in
  first.1 = (call n1 ps1).1
  /\ second.1 = (call n2 ps2).1
  /\ wire second.2
     = (wr ++ wire (call n1 ps1).2 ++ wire (call n2 ps2).2)%list.
Proof.
  intros H1 H2 first second. subst second first.
  destruct (handler_run_any n1 a1 ps1 objs sps wr H1)
    as ([objs1 sps1 wr1] & -> & Hwire1 & (new & Hnew) & _).
  cbn [fst snd objects wire] in *. subst objs1 wr1.
  assert (H2' : (objs ++ new)%list !! a2 = Some ps2)
    by apply lookup_app_l_Some, H2.
  destruct (handler_run_any n2 a2 ps2 _ sps1
              (wr ++ wire (call n1 ps1).2)%list H2')
    as (w2 & -> & Hwire2 & _).
  cbn [fst snd]. split; [reflexivity|]. split; [reflexivity|].
  rewrite Hwire2, <- app_assoc. reflexivity.
Qed.

Lemma build_request_shape name ps rs :
  build_request name ps = Normal rs ->
  method rs = "GET" /\ payload rs = None
  \/ (method rs = "POST" \/ method rs = "PATCH")
     /\ exists b, payload rs = Some b.
Proof.
  destruct (decide (name ∈ tool_names)) as [Hin | Hout].
  - listed Hin; unfold build_request;
      cbn [switch String.eqb Ascii.eqb Bool.eqb]; cbv beta zeta;
      unfold converted;
      repeat match goal with
             | |- context [match ?o with Some _ => _ | None => _ end] =>
                 destruct o
             end;
      intros [= <-]; cbn [method payload];
      first [ left; split; reflexivity
            | right; split; [left; reflexivity | eexists; reflexivity]
            | right; split; [right; reflexivity | eexists; reflexivity] ].
  - rewrite (build_request_miss name ps Hout). discriminate.
Qed.

Lemma request_init_headers k m b :
  get_prop "headers" (request_init k m b)
  = Some (JObj [("Authorization", JStr ("Bearer " +:+ k));
                ("Content-Type", JStr "application/json")]).
Proof.
  unfold request_init. destruct b as [bps|]; [|reflexivity].
  destruct (String.eqb m "GET"); reflexivity.
Qed.

(** A request sent for a call without arguments is a POST without a body
    to one of the four endpoints of the tools that pass the arguments
    on. *)
Lemma call_absent_sent (n : string) (rq : Request) :
  rq ∈ wire (call_tool_without_arguments url key remote n).2 ->
  exists endpoint, rq = request_of url key (mkSpec endpoint "POST" None).
Proof.
  destruct (call_absent_run url key remote n) as (new & sps' & ->).
  cbn [snd wire]. destruct (decide (n ∈ tool_names)) as [Hin | Hout].
  - destruct (build_request_absent_outcomes n Hin)
      as [[endpoint ->] | (message & -> & _)]; cbn [outcome snd].
    + intros Hrq. apply list_elem_of_singleton in Hrq as ->. eauto.
    + intros Hrq. apply elem_of_nil in Hrq. contradiction.
  - rewrite (build_request_absent_miss n Hout). cbn [outcome snd].
    intros Hrq. apply elem_of_nil in Hrq. contradiction.
Qed.

(** X1. Only the tools listed in [tools] ever call [fetch]: for any other
    name nothing is sent, with or without arguments.  The listed names are
    pairwise distinct, and every key a schema marks required is one of the
    properties the schema declares. *)
Theorem registry_matches_dispatcher (name : string) (ps : Props) :
  (name ∈ tool_names
   \/ wire (call name ps).2 = []
      /\ wire (call_tool_without_arguments url key remote name).2 = [])
  /\ NoDup tool_names
  /\ forallb
       (fun t =>
          forallb
            (fun k =>
               existsb (String.eqb k) (map fst (properties (inputSchema t))))
            (required_keys t))
       tools = true.
Proof.
  split; [|split; [|reflexivity]].
  - destruct (decide (name ∈ tool_names)) as [Hin | Hout]; [left; exact Hin|].
    right. split.
    + destruct (call_tool_run url key remote name ps) as (new & sps' & ->).
      rewrite (build_request_miss name ps Hout). reflexivity.
    + destruct (call_absent_run url key remote name) as (new & sps' & ->).
      rewrite (build_request_absent_miss name Hout). reflexivity.
  - apply (bool_decide_unpack _). vm_compute. exact I.
Qed.

(** X4. Every call of [fetch] gets a URL string that is the configured
    base URL followed by an endpoint, and the two headers Authorization,
    with the bearer key, and Content-Type.  The request is a GET without a
    body, or a POST or PATCH whose body is the JSON text of an object, or,
    only when the tool request had no arguments, a POST without a body; no
    other method is used. *)
Theorem requests_carry_credentials (name : string) (ps : Props)
    (rq : Request) :
  rq ∈ wire (call name ps).2
  \/ rq ∈ wire (call_tool_without_arguments url key remote name).2 ->
  get_prop "headers" (req_init rq)
  = Some (JObj [("Authorization", JStr ("Bearer " +:+ key));
                ("Content-Type", JStr "application/json")])
  /\ (exists endpoint, req_url rq = url +:+ endpoint)
  /\ (req_method rq = Some (JStr "GET") /\ req_body rq = None
      \/ (req_method rq = Some (JStr "POST")
          \/ req_method rq = Some (JStr "PATCH"))
         /\ (exists bps,
               req_body rq = Some (JStr (JSON.stringify (JObj bps))))
      \/ req_method rq = Some (JStr "POST") /\ req_body rq = None
         /\ rq ∈ wire (call_tool_without_arguments url key remote name).2).
Proof.
  intros [Hrq | Hrq].
  - destruct (call_tool_sent url key remote name ps rq Hrq)
      as (rs & Hrs & -> & _).
    split; [apply request_init_headers|].
    split; [eexists; reflexivity|].
    unfold req_method, req_body, request_of, request_init. cbn [req_init].
    destruct (build_request_shape name ps rs Hrs)
      as [[-> ->] | [[-> | ->] [b ->]]].
    + left. split; reflexivity.
    + right. left. split; [left; reflexivity | eexists; reflexivity].
    + right. left. split; [right; reflexivity | eexists; reflexivity].
  - destruct (call_absent_sent name rq Hrq) as (endpoint & Heq).
    subst rq.
    split; [apply request_init_headers|].
    split; [eexists; reflexivity|].
    right. right. split; [reflexivity|]. split; [reflexivity | exact Hrq].
Qed.

(** X5. The four tools without an identifier in the path send a POST whose
    body is the whole argument object as it was given: every key stays,
    the lead or appointment identifier and keys the schema does not
    declare included. *)
Theorem pass_through_tools (ps : Props) :
  sends (call "volkern_create_lead" ps).2 (url +:+ "/leads") "POST" (Some ps)
  /\ sends (call "volkern_create_cita" ps).2 (url +:+ "/citas") "POST"
       (Some ps)
  /\ sends (call "volkern_cita_accion" ps).2 (url +:+ "/citas/accion") "POST"
       (Some ps)
  /\ sends (call "volkern_send_whatsapp" ps).2 (url +:+ "/mensajes/enviar")
       "POST" (Some ps).
Proof. repeat split; sends_or_fails I. Qed.

(** X6. The five read tools that take an identifier send a GET without a
    body to the path that holds the identifier's string conversion; when
    the identifier cannot be converted to a string they fail with the
    TypeError and send nothing. *)
Theorem identifier_get_tools (ps : Props) :
  match Conv.ToString (get_prop "leadId" ps) with
  | Some id =>
      sends (call "volkern_get_lead" ps).2 (url +:+ "/leads/" +:+ id)
        "GET" None
      /\ sends (call "volkern_list_tasks" ps).2
           (url +:+ "/leads/" +:+ id +:+ "/tasks") "GET" None
      /\ sends (call "volkern_list_interactions" ps).2
           (url +:+ "/leads/" +:+ id +:+ "/interactions") "GET" None
      /\ sends (call "volkern_list_notes" ps).2
           (url +:+ "/leads/" +:+ id +:+ "/notes") "GET" None
  | None =>
      conversion_failure (call "volkern_get_lead" ps)
      /\ conversion_failure (call "volkern_list_tasks" ps)
      /\ conversion_failure (call "volkern_list_interactions" ps)
      /\ conversion_failure (call "volkern_list_notes" ps)
  end
  /\ match Conv.ToString (get_prop "servicioId" ps) with
     | Some id =>
         sends (call "volkern_get_servicio" ps).2
           (url +:+ "/servicios/" +:+ id) "GET" None
     | None => conversion_failure (call "volkern_get_servicio" ps)
     end.
Proof.
  split.
  - destruct (Conv.ToString (get_prop "leadId" ps)) as [id|] eqn:E;
      repeat split; sends_or_fails E.
  - destruct (Conv.ToString (get_prop "servicioId" ps)) as [id|] eqn:E;
      sends_or_fails E.
Qed.

(** X7. volkern_check_disponibilidad always puts fecha first in the query,
    with the string conversion of whatever the arguments hold for it, so a
    call without fecha asks for fecha=undefined; duracion follows only when
    its value is truthy.  When fecha, or a truthy duracion, cannot be
    converted to a string, the call fails with the TypeError and sends
    nothing. *)
Theorem check_disponibilidad_query (ps : Props) :
  match Conv.ToString (get_prop "fecha" ps), truthy_entry "duracion" ps with
  | Some fecha, Some duracion =>
      sends (call "volkern_check_disponibilidad" ps).2
        (url +:+ "/citas/disponibilidad?"
         +:+ Url.serialize (("fecha", fecha) :: duracion)) "GET" None
  | _, _ => conversion_failure (call "volkern_check_disponibilidad" ps)
  end
  /\ sends (call "volkern_check_disponibilidad" []).2
       (url +:+ "/citas/disponibilidad?fecha=undefined") "GET" None.
Proof.
  split; [|sends_or_fails I].
  destruct (Conv.ToString (get_prop "fecha" ps)) as [fecha|] eqn:E;
    [destruct (truthy_entry "duracion" ps) as [duracion|] eqn:E'|].
  - eapply call_tool_sends with (rs := mkSpec _ _ _); [|left; reflexivity].
    unfold build_request. cbn [switch String.eqb Ascii.eqb Bool.eqb].
    cbv beta zeta. rewrite E, E'. reflexivity.
  - apply call_tool_conversion. unfold build_request.
    cbn [switch String.eqb Ascii.eqb Bool.eqb]. cbv beta zeta.
    rewrite E, E'. reflexivity.
  - sends_or_fails E.
Qed.

(** X8. volkern_list_servicios sends activo whenever the arguments hold
    it, also for the falsy values null, 0 and the empty string, as the
    encoded string conversion of the value; without activo the query is
    empty.  When the value cannot be converted to a string the call fails
    with the TypeError and sends nothing. *)
Theorem list_servicios_query (ps : Props) :
  match get_prop "activo" ps with
  | Some v =>
      match Conv.ToStringJson v with
      | Some s =>
          sends (call "volkern_list_servicios" ps).2
            (url +:+ "/servicios?" +:+ "activo=" +:+ Url.encode s) "GET" None
      | None => conversion_failure (call "volkern_list_servicios" ps)
      end
  | None =>
      sends (call "volkern_list_servicios" ps).2 (url +:+ "/servicios?")
        "GET" None
  end
  /\ Conv.ToStringJson JNull = Some "null"
  /\ Conv.ToStringJson (JNum 0) = Some "0"
  /\ Conv.ToStringJson (JStr "") = Some "".
Proof.
  split; [|repeat split].
  destruct (get_prop "activo" ps) as [v|] eqn:E;
    [destruct (Conv.ToStringJson v) as [s|] eqn:E'|].
  - eapply call_tool_sends with (rs := mkSpec _ _ _); [|left; reflexivity].
    unfold build_request. cbn [switch String.eqb Ascii.eqb Bool.eqb].
    cbv beta zeta. rewrite E, E'. reflexivity.
  - apply call_tool_conversion. unfold build_request.
    cbn [switch String.eqb Ascii.eqb Bool.eqb]. cbv beta zeta.
    rewrite E, E'. reflexivity.
  - sends_or_fails E.
Qed.

Lemma build_request_ext (tool : string) (ps ps' : Props) :
  tool ∈ ["volkern_list_leads"; "volkern_get_lead";
          "volkern_check_disponibilidad"; "volkern_list_citas";
          "volkern_list_servicios"; "volkern_get_servicio";
          "volkern_list_tasks"; "volkern_list_conversaciones";
          "volkern_list_interactions"; "volkern_list_notes"] ->
  (forall k, get_prop k ps = get_prop k ps') ->
  build_request tool ps = build_request tool ps'.
Proof.
  intros Hin Hext.
  repeat (apply elem_of_cons in Hin as [-> | Hin]);
    try (apply elem_of_nil in Hin; contradiction);
    unfold build_request;
    cbn [switch String.eqb Ascii.eqb Bool.eqb query_entries];
    unfold truthy_entry; rewrite !Hext; reflexivity.
Qed.

(** X9. What the ten read tools send depends on the argument object only
    through the values of its properties: two argument objects that agree
    on every property lookup, whatever the order of their keys, give the
    same request and the same result. *)
Theorem read_tools_ignore_key_order (tool : string) (ps ps' : Props) :
  tool ∈ ["volkern_list_leads"; "volkern_get_lead";
          "volkern_check_disponibilidad"; "volkern_list_citas";
          "volkern_list_servicios"; "volkern_get_servicio";
          "volkern_list_tasks"; "volkern_list_conversaciones";
          "volkern_list_interactions"; "volkern_list_notes"] ->
  (forall k, get_prop k ps = get_prop k ps') ->
  wire (call tool ps).2 = wire (call tool ps').2
  /\ (call tool ps).1 = (call tool ps').1.
Proof.
  intros Hin Hext.
  destruct (call_tool_run url key remote tool ps) as (new & sps & ->).
  destruct (call_tool_run url key remote tool ps') as (new' & sps' & ->).
  rewrite (build_request_ext tool ps ps' Hin Hext). split; reflexivity.
Qed.

(** X12. An identifier is put into the path as it is, without any
    encoding: volkern_get_lead asks for /leads/ followed by the very string
    it was given, so an identifier that ends in /notes makes it send the
    request volkern_list_notes sends for the identifier without that
    ending. *)
Theorem path_identifier_is_verbatim (s : string) :
  sends (call "volkern_get_lead" [("leadId", JStr s)]).2
    (url +:+ "/leads/" +:+ s) "GET" None
  /\ wire (call "volkern_get_lead" [("leadId", JStr (s +:+ "/notes"))]).2
     = wire (call "volkern_list_notes" [("leadId", JStr s)]).2.
Proof.
  split; [sends_or_fails I|].
  destruct (call_tool_run url key remote "volkern_get_lead"
              [("leadId", JStr (s +:+ "/notes"))]) as (new & sps & ->).
  destruct (call_tool_run url key remote "volkern_list_notes"
              [("leadId", JStr s)]) as (new' & sps' & ->).
  reflexivity.
Qed.


(** X14. When the remote API answers the request of a call with a status
    in 200-299, the result is the parsed body, pretty-printed with two
    spaces and without [isError]; when that body is not JSON the result is
    the error result with the message of the syntax error. *)
Theorem success_relayed (name : string) (ps : Props) (rq : Request)
    (r : Response) :
  rq ∈ wire (call name ps).2 ->
  remote rq = Responded r ->
  ok r = true ->
  (call name ps).1
  = match body r with
    | JsonBody j =>
        mkResult [mkContent "text" (JSON.stringify_pretty 2 j)] None
    | OtherBody syntax_error =>
        mkResult [mkContent "text" ("Error: " +:+ syntax_error)] (Some true)
    end.
Proof.
  intros Hsent Hremote Hok.
  destruct (call_tool_sent url key remote name ps rq Hsent)
    as (rs & _ & _ & -> & _).
  rewrite Hremote. unfold settle. rewrite Hok. destruct (body r); reflexivity.
Qed.

(** X15. A call without leadId still goes out, with the text undefined in
    the place of the identifier; the tools that strip the identifier then
    send the whole argument object as the body. *)
Theorem missing_identifier_is_undefined (ps : Props) :
  get_prop "leadId" ps = None ->
  sends (call "volkern_get_lead" ps).2 (url +:+ "/leads/undefined") "GET" None
  /\ sends (call "volkern_list_tasks" ps).2
       (url +:+ "/leads/undefined/tasks") "GET" None
  /\ sends (call "volkern_update_lead" ps).2
       (url +:+ "/leads/undefined") "PATCH" (Some ps)
  /\ sends (call "volkern_create_task" ps).2
       (url +:+ "/leads/undefined/tasks") "POST" (Some ps)
  /\ sends (call "volkern_create_interaction" ps).2
       (url +:+ "/leads/undefined/interactions") "POST" (Some ps)
  /\ sends (call "volkern_create_note" ps).2
       (url +:+ "/leads/undefined/notes") "POST" (Some ps).
Proof.
  intros Hmissing.
  repeat split;
    (eapply call_tool_sends with (rs := mkSpec _ _ _);
     [ unfold build_request; cbn [switch String.eqb Ascii.eqb Bool.eqb];
       cbv beta zeta;
       rewrite ?(rest_without_absent _ _ Hmissing), Hmissing; reflexivity
     | first [left; reflexivity | right; reflexivity] ]).
Qed.

(** X17. The queries of volkern_list_citas and volkern_list_conversaciones
    hold an entry for a key exactly when the key is one of the tool's
    filters and the arguments give it a truthy value; the entry carries the
    string conversion of that value.  So a filter with a truthy value is
    never dropped and nothing else is ever added; when such a value cannot
    be converted to a string the call fails with the TypeError and sends
    nothing. *)
Theorem list_queries_exact (ps : Props) :
  match query_entries
          ["estado"; "tipo"; "fecha"; "fechaInicio"; "fechaFin"] ps with
  | Some entries =>
      sends (call "volkern_list_citas" ps).2
        (url +:+ "/citas?" +:+ Url.serialize entries) "GET" None
      /\ forall k s, (k, s) ∈ entries
           <-> k ∈ ["estado"; "tipo"; "fecha"; "fechaInicio"; "fechaFin"]
               /\ exists v, get_prop k ps = Some v
                            /\ Conv.ToBoolean (Some v) = true
                            /\ Conv.ToStringJson v = Some s
  | None =>
      conversion_failure (call "volkern_list_citas" ps)
      /\ exists k v, k ∈ ["estado"; "tipo"; "fecha"; "fechaInicio"; "fechaFin"]
                     /\ get_prop k ps = Some v
                     /\ Conv.ToBoolean (Some v) = true
                     /\ Conv.ToStringJson v = None
  end
  /\ match query_entries ["leadId"; "page"; "limit"] ps with
     | Some entries =>
         sends (call "volkern_list_conversaciones" ps).2
           (url +:+ "/mensajes/conversaciones?" +:+ Url.serialize entries)
           "GET" None
         /\ forall k s, (k, s) ∈ entries
              <-> k ∈ ["leadId"; "page"; "limit"]
                  /\ exists v, get_prop k ps = Some v
                               /\ Conv.ToBoolean (Some v) = true
                               /\ Conv.ToStringJson v = Some s
     | None =>
         conversion_failure (call "volkern_list_conversaciones" ps)
         /\ exists k v, k ∈ ["leadId"; "page"; "limit"]
                        /\ get_prop k ps = Some v
                        /\ Conv.ToBoolean (Some v) = true
                        /\ Conv.ToStringJson v = None
     end.
Proof.
  split.
  - pose proof (query_entries_spec
                  ["estado"; "tipo"; "fecha"; "fechaInicio"; "fechaFin"] ps)
      as Hspec.
    destruct (query_entries
                ["estado"; "tipo"; "fecha"; "fechaInicio"; "fechaFin"] ps)
      as [entries|] eqn:E; (split; [sends_or_fails E | exact Hspec]).
  - pose proof (query_entries_spec ["leadId"; "page"; "limit"] ps) as Hspec.
    destruct (query_entries ["leadId"; "page"; "limit"] ps)
      as [entries|] eqn:E; (split; [sends_or_fails E | exact Hspec]).
Qed.

End Coverage.

(** ** The query serializer *)

Lemma all_chars_app (p : ascii -> bool) (a b : string) :
  all_chars p (a +:+ b) = all_chars p a && all_chars p b.
Proof.
  induction a as [|x a IH]; [reflexivity|].
  change (p x && all_chars p (a +:+ b) = p x && all_chars p a && all_chars p b).
  rewrite IH. apply andb_assoc.
Qed.

Lemma count_char_app (c : ascii) (a b : string) :
  count_char c (a +:+ b) = (count_char c a + count_char c b)%nat.
Proof.
  induction a as [|x a IH]; [reflexivity|].
  change (count_char c (String x (a +:+ b))
          = (count_char c (String x a) + count_char c b)%nat).
  cbn [count_char]. destruct (Ascii.eqb x c); rewrite IH; reflexivity.
Qed.

Lemma count_char_none (p : ascii -> bool) (c : ascii) (s : string) :
  all_chars p s = true -> p c = false -> count_char c s = O.
Proof.
  intros Hall Hc. induction s as [|x s IH]; [reflexivity|].
  cbn [all_chars count_char] in *. apply andb_true_iff in Hall as [Hx Hs].
  destruct (Ascii.eqb_spec x c) as [->|_]; [congruence|]. exact (IH Hs).
Qed.

Lemma encode_char_safe (c : ascii) :
  all_chars query_safe (Conv.join "" (map Url.encode_byte (Url.utf8 c))) = true.
Proof. destruct c as [[] [] [] [] [] [] [] []]; vm_compute; reflexivity. Qed.

Lemma encode_safe (s : string) : all_chars query_safe (Url.encode s) = true.
Proof.
  induction s as [|c s IH]; [reflexivity|].
  cbn [Url.encode]. rewrite all_chars_app, encode_char_safe, IH. reflexivity.
Qed.

Lemma count_char_encode (c : ascii) (s : string) :
  query_safe c = false -> count_char c (Url.encode s) = O.
Proof. apply count_char_none, encode_safe. Qed.

Lemma count_char_join (c : ascii) (sep : string) (parts : list string) :
  count_char c (Conv.join sep parts)
  = (list_sum (map (count_char c) parts)
     + pred (length parts) * count_char c sep)%nat.
Proof.
  induction parts as [|p [|q rest] IH].
  - reflexivity.
  - cbn. lia.
  - change (Conv.join sep (p :: q :: rest))
      with (p +:+ sep +:+ Conv.join sep (q :: rest)).
    rewrite !count_char_app, IH.
    cbn [map list_sum fold_right length pred Nat.mul]. lia.
Qed.

(** X10. A serialized query is made of its entries and nothing else: each
    name and each value consists of letters, digits and the characters
    percent, asterisk, plus, hyphen, dot and underscore only, so the text
    holds one equals sign per entry and one ampersand between two entries,
    whatever the names and values are. *)
Theorem query_is_well_formed (entries : list (string * string)) (s : string) :
  all_chars query_safe (Url.encode s) = true
  /\ count_char "=" (Url.serialize entries) = length entries
  /\ count_char "&" (Url.serialize entries) = pred (length entries).
Proof.
  split; [apply encode_safe|].
  unfold Url.serialize. rewrite !count_char_join.
  assert (Hparts : forall c n,
            query_safe c = false ->
            count_char c "=" = n ->
            list_sum (map (count_char c)
                        (map (fun e => Url.encode (fst e) +:+ "="
                                       +:+ Url.encode (snd e)) entries))
            = (n * length entries)%nat).
  { intros c n Hc Hn. induction entries as [|e entries IH]; [cbn; lia|].
    cbn [map list_sum fold_right length]. fold (list_sum (map (count_char c)
      (map (fun e => Url.encode (fst e) +:+ "=" +:+ Url.encode (snd e)) entries))).
    rewrite IH, !count_char_app.
    rewrite !(count_char_encode c _ Hc), Hn. lia. }
  rewrite (Hparts "="%char 1%nat eq_refl eq_refl).
  rewrite (Hparts "&"%char 0%nat eq_refl eq_refl).
  rewrite !length_map. cbn [count_char Ascii.eqb Bool.eqb]. lia.
Qed.

Lemma all_chars_weaken (p q : ascii -> bool) (s : string) :
  (forall c, p c = true -> q c = true) ->
  all_chars p s = true -> all_chars q s = true.
Proof.
  intros Hpq. induction s as [|x s IH]; [reflexivity|].
  cbn [all_chars]. rewrite !andb_true_iff. intros [Hx Hs]. auto.
Qed.

Lemma all_chars_join (p : ascii -> bool) (sep : string) (parts : list string) :
  all_chars p sep = true ->
  Forall (fun part => all_chars p part = true) parts ->
  all_chars p (Conv.join sep parts) = true.
Proof.
  intros Hsep Hparts. induction Hparts as [|part [|q rest] Hpart _ IH].
  - reflexivity.
  - exact Hpart.
  - change (Conv.join sep (part :: q :: rest))
      with (part +:+ sep +:+ Conv.join sep (q :: rest)).
    rewrite !all_chars_app, Hpart, Hsep, IH. reflexivity.
Qed.

Lemma serialize_chars (entries : list (string * string)) :
  all_chars query_char (Url.serialize entries) = true.
Proof.
  unfold Url.serialize. apply all_chars_join; [reflexivity|].
  apply Forall_forall. intros part Hpart.
  apply list_elem_of_In, in_map_iff in Hpart as (e & <- & _).
  assert (Hsafe : forall s, all_chars query_char (Url.encode s) = true).
  { intros s. apply (all_chars_weaken query_safe); [|apply encode_safe].
    intros c Hc. unfold query_char. rewrite Hc. reflexivity. }
  rewrite !all_chars_app, !Hsafe. reflexivity.
Qed.

Lemma truthy_entry_length (k : string) (ps : Props)
    (e : list (string * string)) :
  truthy_entry k ps = Some e -> (length e <= 1)%nat.
Proof.
  unfold truthy_entry. destruct (Conv.ToBoolean _).
  - destruct (Conv.ToString _); intros [= <-]. cbn. lia.
  - intros [= <-]. cbn. lia.
Qed.

Lemma query_entries_length (keys : list string) (ps : Props)
    (entries : list (string * string)) :
  query_entries keys ps = Some entries ->
  (length entries <= length keys)%nat.
Proof.
  revert entries. induction keys as [|k keys IH]; cbn [query_entries].
  - intros entries [= <-]. cbn. lia.
  - intros entries. destruct (truthy_entry k ps) as [e|] eqn:He; [|discriminate].
    destruct (query_entries keys ps) as [es|]; [|discriminate].
    intros [= <-]. rewrite length_app. cbn [length].
    pose proof (truthy_entry_length k ps e He). pose proof (IH es eq_refl). lia.
Qed.

(** X11. Whatever the arguments of volkern_list_leads hold, the URL string
    of a request the tool sends is the base URL, /leads? and a text that
    consists of query characters only, the safe characters, the ampersand
    and the equals sign, and holds at most four ampersands: no value can
    end the query, start a fragment or add a sixth parameter. *)
Theorem list_leads_query_is_closed (url key : string)
    (remote : Request -> FetchResult) (ps : Props) (rq : Request) :
  rq ∈ wire (call_tool url key remote "volkern_list_leads" ps).2 ->
  exists q,
    req_url rq = url +:+ "/leads?" +:+ q
    /\ all_chars query_char q = true
    /\ (count_char "&" q <= 4)%nat
    /\ count_char "?" q = O
    /\ count_char "#" q = O
    /\ count_char "/" q = O.
Proof.
  intros Hsent.
  destruct (call_tool_sent url key remote "volkern_list_leads" ps rq Hsent)
    as (rs & Hrs & -> & _).
  unfold build_request in Hrs.
  cbn [switch String.eqb Ascii.eqb Bool.eqb] in Hrs. cbv beta zeta in Hrs.
  destruct (query_entries ["estado"; "canal"; "search"; "page"; "limit"] ps)
    as [entries|] eqn:E; [|discriminate Hrs].
  injection Hrs as <-. exists (Url.serialize entries).
  split; [reflexivity|]. split; [apply serialize_chars|]. split.
  - unfold Url.serialize. rewrite count_char_join.
    assert (Hparts : forall es : list (string * string),
              list_sum (map (count_char "&")
                          (map (fun e => Url.encode (fst e) +:+ "="
                                         +:+ Url.encode (snd e)) es))
              = O).
    { intros es. induction es as [|e es IH]; [reflexivity|].
      cbn [map list_sum fold_right].
      fold (list_sum (map (count_char "&")
              (map (fun e => Url.encode (fst e) +:+ "="
                             +:+ Url.encode (snd e)) es))).
      rewrite IH, !count_char_app.
      rewrite !(count_char_encode "&" _ eq_refl). reflexivity. }
    rewrite Hparts, length_map.
    pose proof (query_entries_length _ _ _ E) as Hlen. cbn [length] in Hlen.
    cbn [count_char Ascii.eqb Bool.eqb]. lia.
  - repeat split;
      (apply (count_char_none query_char);
       [apply serialize_chars | reflexivity]).
Qed.

(** X16. A process serves calls only when VOLKERN_API_KEY is set to a
    string that is not empty; it then handles every call with that key and
    with VOLKERN_API_URL as the base URL, or https://volkern.app/api when
    that variable is not set or is empty, so the URL string of every
    request it hands to [fetch] is that base URL followed by an endpoint
    and the request carries the key as the bearer token.  Without a key, or
    with an empty one, no call is served. *)
Theorem startup_configuration (env : string -> option string)
    (remote : Request -> FetchResult) (name : string) (ps : Props) :
  let base :=
    match env "VOLKERN_API_URL" with
    | Some "" | None => "https://volkern.app/api"
    | Some u => u
    end in
  match serve env remote name ps with
  | Some out =>
      exists k,
        env "VOLKERN_API_KEY" = Some k
        /\ k <> ""
        /\ out = call_tool base k remote name ps
        /\ forall rq, rq ∈ wire out.2 ->
             get_prop "headers" (req_init rq)
             = Some (JObj [("Authorization", JStr ("Bearer " +:+ k));
                           ("Content-Type", JStr "application/json")])
             /\ exists endpoint, req_url rq = base +:+ endpoint
  | None =>
      env "VOLKERN_API_KEY" = None \/ env "VOLKERN_API_KEY" = Some ""
  end.
Proof.
  intros base.
  assert (Hbase : or_else (env "VOLKERN_API_URL") "https://volkern.app/api"
                  = base).
  { subst base. unfold or_else.
    destruct (env "VOLKERN_API_URL") as [[|c s]|]; reflexivity. }
  unfold serve, configure. rewrite Hbase. unfold or_else.
  destruct (env "VOLKERN_API_KEY") as [k|] eqn:Hkey; [|left; reflexivity].
  destruct (String.eqb_spec k "") as [->|Hk]; [right; reflexivity|].
  destruct (String.eqb_spec k "") as [->|_]; [contradiction|].
  cbn [api_url api_key]. exists k.
  split; [reflexivity|]. split; [exact Hk|]. split; [reflexivity|].
  intros rq Hrq.
  destruct (call_tool_sent base k remote name ps rq Hrq)
    as (rs & _ & -> & _).
  split; [apply request_init_headers | eexists; reflexivity].
Qed.

(** ** Concrete runs of the further properties *)

(** X2 at volkern_get_lead in a store that is not empty. *)
Lemma call_is_independent_of_the_store_witness :
  (CallToolRequest "https://volkern.app/api" "secret" (always created)
     "volkern_get_lead" (Some 1%nat) busy_store).1
  = (call_tool "https://volkern.app/api" "secret" (always created)
       "volkern_get_lead" [("leadId", JStr "abc123")]).1
  /\ wire (CallToolRequest "https://volkern.app/api" "secret" (always created)
             "volkern_get_lead" (Some 1%nat) busy_store).2
     = (wire busy_store
        ++ wire (call_tool "https://volkern.app/api" "secret" (always created)
                   "volkern_get_lead" [("leadId", JStr "abc123")]).2)%list.
Proof.
  destruct (call_is_independent_of_the_store "https://volkern.app/api"
              "secret" (always created) "volkern_get_lead" 1%nat
              [("leadId", JStr "abc123")] (objects busy_store)
              (searchParams busy_store) (wire busy_store) eq_refl)
    as (Hresult & Hwire & _).
  split; [exact Hresult | exact Hwire].
Defined.

(** X3 at volkern_update_lead followed by volkern_list_notes on the same
    argument object. *)
Lemma calls_compose_witness :
  wire (CallToolRequest "https://volkern.app/api" "secret" (always created)
          "volkern_list_notes" (Some 1%nat)
          (CallToolRequest "https://volkern.app/api" "secret" (always created)
             "volkern_update_lead" (Some 1%nat) busy_store).2).2
  = (wire busy_store
     ++ wire (call_tool "https://volkern.app/api" "secret" (always created)
                "volkern_update_lead" [("leadId", JStr "abc123")]).2
     ++ wire (call_tool "https://volkern.app/api" "secret" (always created)
                "volkern_list_notes" [("leadId", JStr "abc123")]).2)%list.
Proof.
  destruct (calls_compose "https://volkern.app/api" "secret" (always created)
              "volkern_update_lead" "volkern_list_notes" 1%nat 1%nat
              [("leadId", JStr "abc123")] [("leadId", JStr "abc123")]
              (objects busy_store) (searchParams busy_store)
              (wire busy_store) eq_refl eq_refl)
    as (_ & _ & Hwire).
  exact Hwire.
Defined.

(** X4 at the request of volkern_update_lead. *)
Lemma requests_carry_credentials_witness :
  get_prop "headers"
    (request_init "secret" "PATCH" (Some [("nombre", JStr "X")]))
  = Some (JObj [("Authorization", JStr ("Bearer " +:+ "secret"));
                ("Content-Type", JStr "application/json")])
  /\ (exists endpoint,
        "https://volkern.app/api/leads/abc123"
        = "https://volkern.app/api" +:+ endpoint).
Proof.
  assert (Hsent :
    mkRequest "https://volkern.app/api/leads/abc123"
      (request_init "secret" "PATCH" (Some [("nombre", JStr "X")]))
    ∈ wire (call_tool "https://volkern.app/api" "secret" (always created)
              "volkern_update_lead"
              [("leadId", JStr "abc123"); ("nombre", JStr "X")]).2).
  { vm_compute. apply list_elem_of_here. }
  destruct (requests_carry_credentials "https://volkern.app/api" "secret"
              (always created) "volkern_update_lead"
              [("leadId", JStr "abc123"); ("nombre", JStr "X")] _
              (or_introl Hsent))
    as (Hheaders & Hurl & _).
  split; [exact Hheaders | exact Hurl].
Defined.

(** X9 at volkern_list_leads with the same two filters in either order. *)
Lemma read_tools_ignore_key_order_witness :
  wire (call_tool "https://volkern.app/api" "secret" (always created)
          "volkern_list_leads" [("estado", JStr "nuevo"); ("page", JNum 2)]).2
  = wire (call_tool "https://volkern.app/api" "secret" (always created)
            "volkern_list_leads" [("page", JNum 2); ("estado", JStr "nuevo")]).2
  /\ (call_tool "https://volkern.app/api" "secret" (always created)
        "volkern_list_leads" [("estado", JStr "nuevo"); ("page", JNum 2)]).1
     = (call_tool "https://volkern.app/api" "secret" (always created)
          "volkern_list_leads" [("page", JNum 2); ("estado", JStr "nuevo")]).1.
Proof.
  apply (read_tools_ignore_key_order "https://volkern.app/api" "secret"
           (always created) "volkern_list_leads").
  - apply list_elem_of_here.
  - intros k. cbn [get_prop].
    destruct (String.eqb_spec k "estado") as [->|_]; [reflexivity|].
    destruct (String.eqb k "page"); reflexivity.
Defined.

(** X11 at a search text that holds an ampersand, a question mark and a
    slash. *)
Lemma list_leads_query_is_closed_witness :
  exists q,
    "https://volkern.app/api/leads?search=a%26b%3F%2Fc"
    = "https://volkern.app/api" +:+ "/leads?" +:+ q
    /\ all_chars query_char q = true
    /\ (count_char "&" q <= 4)%nat
    /\ count_char "?" q = O
    /\ count_char "#" q = O
    /\ count_char "/" q = O.
Proof.
  assert (Hsent :
    mkRequest "https://volkern.app/api/leads?search=a%26b%3F%2Fc"
      (request_init "secret" "GET" None)
    ∈ wire (call_tool "https://volkern.app/api" "secret" (always created)
              "volkern_list_leads" [("search", JStr "a&b?/c")]).2).
  { vm_compute. apply list_elem_of_here. }
  exact (list_leads_query_is_closed "https://volkern.app/api" "secret"
           (always created) [("search", JStr "a&b?/c")] _ Hsent).
Defined.


(** X14 at volkern_get_lead against a remote side that answers 200. *)
Lemma success_relayed_witness :
  (call_tool "https://volkern.app/api" "secret" (always created)
     "volkern_get_lead" [("leadId", JStr "abc123")]).1
  = mkResult
      [mkContent "text" (JSON.stringify_pretty 2 (JObj [("id", JStr "42")]))]
      None.
Proof.
  assert (Hsent :
    mkRequest "https://volkern.app/api/leads/abc123"
      (request_init "secret" "GET" None)
    ∈ wire (call_tool "https://volkern.app/api" "secret" (always created)
              "volkern_get_lead" [("leadId", JStr "abc123")]).2).
  { vm_compute. apply list_elem_of_here. }
  exact (success_relayed "https://volkern.app/api" "secret" (always created)
           "volkern_get_lead" [("leadId", JStr "abc123")] _ created
           Hsent eq_refl eq_refl).
Defined.

(** X15 at an argument object that holds nombre alone. *)
Lemma missing_identifier_is_undefined_witness :
  sends (call_tool "https://volkern.app/api" "secret" (always created)
           "volkern_get_lead" [("nombre", JStr "X")]).2
    ("https://volkern.app/api" +:+ "/leads/undefined") "GET" None
  /\ sends (call_tool "https://volkern.app/api" "secret" (always created)
              "volkern_update_lead" [("nombre", JStr "X")]).2
       ("https://volkern.app/api" +:+ "/leads/undefined") "PATCH"
       (Some [("nombre", JStr "X")]).
Proof.
  destruct (missing_identifier_is_undefined "https://volkern.app/api"
              "secret" (always created) [("nombre", JStr "X")] eq_refl)
    as (Hget & _ & Hupdate & _).
  split; [exact Hget | exact Hupdate].
Defined.

(** X16 at an environment that sets the key alone. *)
Lemma startup_configuration_witness :
  exists k,
    key_only "secret" "VOLKERN_API_KEY" = Some k
    /\ k <> ""
    /\ serve (key_only "secret") (always created) "volkern_get_lead"
         [("leadId", JStr "abc123")]
       = Some (call_tool "https://volkern.app/api" k (always created)
                 "volkern_get_lead" [("leadId", JStr "abc123")]).
Proof.
  pose proof (startup_configuration (key_only "secret") (always created)
                "volkern_get_lead" [("leadId", JStr "abc123")]) as Hserve.
  cbv zeta in Hserve.
  destruct (serve (key_only "secret") (always created) "volkern_get_lead"
              [("leadId", JStr "abc123")]) as [out|] eqn:Hout.
  - destruct Hserve as (k & Hk & Hne & -> & _). exists k. auto.
  - exfalso. destruct Hserve as [H | H]; discriminate H.
Defined.
